(** * Langflow front-end: a shallow embedding of the request hooks,
      the chat send button, the node status effect, the slider and the
      voice assistant.

    Part I holds the embedding, one module per source file; Part II holds
    the properties.  JavaScript values are modelled as the code uses them:
    optional fields as [option], objects used as dictionaries as [gmap],
    promises as state-passing computations that settle with a value or an
    error. *)

From Stdlib Require Import ZArith QArith List String Ascii Bool Lia Lqa.
From Stdlib Require Import Decimal DecimalString.
From Stdlib Require DecimalPos DecimalZ.
From stdpp Require Import gmap strings list.

Local Open Scope string_scope.
Local Open Scope list_scope.

(* ================================================================== *)
(** * Part I: the embedding *)
(* ================================================================== *)

(** ** Promises: state passing with rejection *)

Module Promise.

(** What a rejected promise or a [throw] carries. *)
Inductive Error :=
| AxiosError (message : string)
| TypeError (message : string).

Inductive Settled (A : Type) :=
| Resolved (a : A)
| Rejected (e : Error).
Arguments Resolved {A} a.
Arguments Rejected {A} e.

(** An async function over the client state [S]. *)
Definition M (S A : Type) : Type := S -> S * Settled A.

Definition ret {S A} (a : A) : M S A := fun s => (s, Resolved a).

Definition throw {S A} (e : Error) : M S A := fun s => (s, Rejected e).

(** [await m] followed by the rest of the function. *)
Definition bind {S A B} (m : M S A) (k : A -> M S B) : M S B :=
  fun s =>
    match m s with
    | (s', Resolved a) => k a s'
    | (s', Rejected e) => (s', Rejected e)
    end.

(** [try { m } catch (e) { h e }]. *)
Definition try_catch {S A} (m : M S A) (h : Error -> M S A) : M S A :=
  fun s =>
    match m s with
    | (s', Resolved a) => (s', Resolved a)
    | (s', Rejected e) => h e s'
    end.

(** A synchronous store update. *)
Definition modify {S} (f : S -> S) : M S unit := fun s => (f s, Resolved tt).

End Promise.

Import Promise.

Declare Scope promise_scope.
Delimit Scope promise_scope with promise.
Notation "'await' x <- m ;; k" := (bind m (fun x => k))
  (at level 10, x name, m at level 99, k at level 200) : promise_scope.

(** ** The chat send button (ButtonSendWrapper) *)

Module ChatButton.

(** [FilePreviewType]: of an attached file the button reads only whether
    its upload is still running. *)
Record FilePreviewType := { loading : bool }.

Record ButtonSendWrapperProps := {
  lockChat : bool;
  noInput : bool;
  chatValue : string;
  files : list FilePreviewType
}.

(** [files.some((file) => file.loading)] *)
Definition someLoading (fs : list FilePreviewType) : bool := existsb loading fs.

Definition showStopButton (p : ButtonSendWrapperProps) : bool :=
  lockChat p || someLoading (files p).

Definition showPlayButton (p : ButtonSendWrapperProps) : bool :=
  negb (lockChat p) && noInput p.

Definition showSendButton (p : ButtonSendWrapperProps) : bool :=
  negb (lockChat p || someLoading (files p)) && negb (noInput p).

Definition NO_INPUT := "bg-high-indigo text-background".
Definition HAS_CHAT_VALUE := "text-primary".
Definition SHOW_STOP := "bg-error text-background cursor-pointer".
Definition DEFAULT := "bg-chat-send text-background".

(** A string is truthy when it is not empty. *)
Definition truthy (s : string) : bool :=
  match s with EmptyString => false | _ => true end.

Definition getConditionalClasses (p : ButtonSendWrapperProps) : string :=
  if noInput p then NO_INPUT
  else if truthy (chatValue p) then HAS_CHAT_VALUE
  else if showStopButton p then SHOW_STOP
  else DEFAULT.

(** The two callbacks the click handler can invoke: the [send] prop and
    the flow store's [stopBuilding]. *)
Inductive Call := Send | StopBuilding.

(** [handleClick], as the sequence of callbacks it invokes. *)
Definition handleClick (p : ButtonSendWrapperProps) (isBuilding : bool) : list Call :=
  if negb (showStopButton p) then [Send]
  else if showStopButton p && isBuilding then [StopBuilding]
  else [].

(** [disabled={lockChat && !isBuilding}] *)
Definition disabled (p : ButtonSendWrapperProps) (isBuilding : bool) : bool :=
  lockChat p && negb isBuilding.

(** A click on the rendered button: a disabled button fires no handler. *)
Definition click (p : ButtonSendWrapperProps) (isBuilding : bool) : list Call :=
  if disabled p isBuilding then [] else handleClick p isBuilding.

(** [<Case condition={c}>] renders its child when [c] holds. *)
Definition Case (condition : bool) (child : string) : list string :=
  if condition then [child] else [].

(** The icons inside the button, in document order. *)
Definition icons (p : ButtonSendWrapperProps) : list string :=
  Case (showStopButton p) "Square"
  ++ Case (showPlayButton p) "Zap"
  ++ Case (showSendButton p) "LucideSend".

End ChatButton.

(** ** The flows query: [addQueryParams] and [useGetRefreshFlows] *)

Module UrlSearchParams.

(** [URLSearchParams]: the list of name-value pairs, in append order. *)
Definition t := list (string * string).

Definition append (q : t) (name value : string) : t := q ++ [(name, value)].

Definition hexDigit (n : N) : ascii :=
  if (n <? 10)%N then ascii_of_N (48 + n) else ascii_of_N (55 + n).

(** The application/x-www-form-urlencoded byte serializer: ASCII
    alphanumerics and [*-._] stay, a space becomes [+], every other byte
    is percent-encoded in upper-case hexadecimal.  A string stands for
    its UTF-8 bytes. *)
Definition unreserved (c : ascii) : bool :=
  let n := N_of_ascii c in
  ((48 <=? n) && (n <=? 57) || (65 <=? n) && (n <=? 90)
   || (97 <=? n) && (n <=? 122)
   || (n =? 42) || (n =? 45) || (n =? 46) || (n =? 95))%N.

Definition encodeByte (c : ascii) : string :=
  if unreserved c then String c EmptyString
  else if (N_of_ascii c =? 32)%N then "+"
  else String "%" (String (hexDigit (N_of_ascii c / 16))
                     (String (hexDigit (N_of_ascii c mod 16)) EmptyString)).

Fixpoint encode (s : string) : string :=
  match s with
  | EmptyString => EmptyString
  | String c s' => encodeByte c ++ encode s'
  end.

Definition pair (nv : string * string) : string :=
  encode (fst nv) ++ "=" ++ encode (snd nv).

(** [queryParams.toString()] *)
Fixpoint toString (q : t) : string :=
  match q with
  | [] => EmptyString
  | [nv] => pair nv
  | nv :: q' => pair nv ++ "&" ++ toString q'
  end.

End UrlSearchParams.

Module FlowsQuery.

(** [GetFlowsParams]: every field is optional.  [page] and [size] are
    page counters, modelled as integers. *)
Record GetFlowsParams := {
  components_only : option bool;
  get_all : option bool;
  header_flows : option bool;
  folder_id : option string;
  remove_example_flows : option bool;
  page : option Z;
  size : option Z
}.

Definition noParams : GetFlowsParams :=
  {| components_only := None; get_all := None; header_flows := None;
     folder_id := None; remove_example_flows := None;
     page := None; size := None |}.

(** Truthiness of an optional boolean, string and number. *)
Definition truthyBool (b : option bool) : bool :=
  match b with Some true => true | _ => false end.

Definition truthyString (s : option string) : bool :=
  match s with Some (String _ _) => true | _ => false end.

Definition truthyNumber (n : option Z) : bool :=
  match n with Some z => negb (z =? 0)%Z | None => false end.

(** [n.toString()] of a safe integer (at most 2^53 - 1 in magnitude):
    its decimal numeral.  Larger integers are not all numbers, and from
    10^21 on [toString] prints an exponent; what the theorems say of the
    text of a page or a size, they say of safe integers. *)
Definition numberToString (z : Z) : string := NilZero.string_of_int (Z.to_int z).

Definition orEmpty (s : option string) : string :=
  match s with Some x => x | None => EmptyString end.

Definition orZero (n : option Z) : Z :=
  match n with Some z => z | None => 0%Z end.

(** [if (c) queryParams.append(name, value)] *)
Definition appendIf (c : bool) (name value : string) (q : UrlSearchParams.t)
  : UrlSearchParams.t :=
  if c then UrlSearchParams.append q name value else q.

(** The state of [queryParams] after the seven conditional appends. *)
Definition queryParams (params : GetFlowsParams) : UrlSearchParams.t :=
  let q := [] in
  let q := appendIf (truthyBool (components_only params)) "components_only" "true" q in
  let q := appendIf (truthyBool (get_all params)) "get_all" "true" q in
  let q := appendIf (truthyBool (header_flows params)) "header_flows" "true" q in
  let q := appendIf (truthyString (folder_id params)) "folder_id"
             (orEmpty (folder_id params)) q in
  let q := appendIf (truthyBool (remove_example_flows params))
             "remove_example_flows" "true" q in
  let q := appendIf (truthyNumber (page params)) "page"
             (numberToString (orZero (page params))) q in
  let q := appendIf (truthyNumber (size params)) "size"
             (numberToString (orZero (size params))) q in
  q.

Definition addQueryParams (url : string) (params : GetFlowsParams) : string :=
  let queryString := UrlSearchParams.toString (queryParams params) in
  match queryString with
  | EmptyString => url
  | _ => url ++ "?" ++ queryString
  end.

(** *** [useGetRefreshFlows] *)

Section RefreshFlows.

(** The DTO types are opaque to the hook.  [FlowType] is a flow as the
    backend sends it, [PageInfo] what a paginated answer carries besides
    its [items], [APIObject] the [data] that [processFlows] returns and
    [ComponentFields] what [extractFieldsFromComponenents] returns. *)
Context {FlowType PageInfo APIObject ComponentFields : Type}.

Record PaginatedFlowsType := { items : list FlowType; pageInfo : PageInfo }.

(** [FlowType[] | PaginatedFlowsType]: a body for which [Array.isArray]
    holds, or an object with [items]. *)
Inductive FlowsData :=
| FlowArray (l : list FlowType)
| FlowPage (p : PaginatedFlowsType).

(** The client state the hook touches, with the backend it talks to.
    The [n]-th GET, to [url], settles as [backend n url]; a resolved
    response carries its body, [None] for an empty (falsy) one.
    [flows] is the flows manager store, [typesData] and
    [componentFields] the types store, [errorData] the title of the
    alert store's error. *)
Record State := {
  backend : nat -> string -> Settled (option FlowsData);
  requests : list string;
  flows : list FlowType;
  typesData : gmap string APIObject;
  componentFields : ComponentFields;
  errorData : option string
}.

(** [utils/reactflowUtils] and [getURL("FLOWS")] are imported, not
    defined here. *)
Variable processFlows : FlowsData -> APIObject.
Variable extractFieldsFromComponenents : gmap string APIObject -> ComponentFields.
Variable FLOWS : string.

(** [const { data } = await api.get(url)] *)
Definition api_get (url : string) : M State (option FlowsData) :=
  fun s =>
    ({| backend := backend s; requests := requests s ++ [url];
        flows := flows s; typesData := typesData s;
        componentFields := componentFields s; errorData := errorData s |},
     backend s (length (requests s)) url).

Definition setFlows (l : list FlowType) (s : State) : State :=
  {| backend := backend s; requests := requests s;
     flows := l; typesData := typesData s;
     componentFields := componentFields s; errorData := errorData s |}.

Definition setErrorData (title : string) (s : State) : State :=
  {| backend := backend s; requests := requests s;
     flows := flows s; typesData := typesData s;
     componentFields := componentFields s; errorData := Some title |}.

(** [useTypesStore.setState((state) => ({ data: {...state.data,
    saved_components: data}, ComponentFields: ... }))] *)
Definition setSavedComponents (data : APIObject) (s : State) : State :=
  {| backend := backend s; requests := requests s;
     flows := flows s;
     typesData := <["saved_components" := data]> (typesData s);
     componentFields :=
       extractFieldsFromComponenents (<["saved_components" := data]> (typesData s));
     errorData := errorData s |}.

Definition getRefreshFlowsFn (params : GetFlowsParams) : M State (option FlowsData) :=
  api_get (addQueryParams (FLOWS ++ "/") params).

Definition componentsParams : GetFlowsParams :=
  {| components_only := Some true; get_all := Some true;
     header_flows := None; folder_id := None;
     remove_example_flows := None; page := None; size := None |}.

(** The callback given to [.then]. *)
Definition onFlows (dbDataFlows : option FlowsData) : M State (option (list FlowType)) :=
  (await dbDataComponents <- getRefreshFlowsFn componentsParams ;;
   await _ <- match dbDataComponents with
              | Some c => modify (setSavedComponents (processFlows c))
              | None => ret tt
              end ;;
   match dbDataFlows with
   | Some d =>
       let flows := match d with
                    | FlowArray l => l
                    | FlowPage p => items p
                    end in
       await _ <- modify (setFlows flows) ;;
       ret (Some flows)
   | None => ret None
   end)%promise.

(** [mutationFn]; [params] is optional, and reading a field of
    [undefined] throws inside the [try]. *)
Definition mutationFn (params : option GetFlowsParams) : M State (list FlowType) :=
  try_catch
    (await _ <- (await dbDataFlows <-
                   match params with
                   | Some p => getRefreshFlowsFn p
                   | None => throw (TypeError "Cannot read properties of undefined")
                   end ;;
                 onFlows dbDataFlows) ;;
     ret [])%promise
    (fun e =>
       (await _ <- modify (setErrorData "Could not load flows from database") ;;
        throw e)%promise).

End RefreshFlows.

Arguments PaginatedFlowsType : clear implicits.
Arguments FlowsData : clear implicits.
Arguments State : clear implicits.

End FlowsQuery.

(** ** Folders: [usePostFolders] *)

Module PostFolders.

(** [AddFolderType], as far as [addFoldersFn] reads it. *)
Record AddFolderType := {
  name : string;
  description : string;
  flows : option (list string);
  components : option (list string)
}.

Record IPostAddFolders := { data : AddFolderType }.

(** The body of the POST. *)
Record Payload := {
  payload_name : string;
  payload_description : string;
  flows_list : list string;
  components_list : list string
}.

(** [x ?? []] *)
Definition orNil {A} (x : option (list A)) : list A :=
  match x with Some l => l | None => [] end.

Section AddFolders.

(** [Folder] is the body of the answer, [FoldersStore] the folders
    store, both opaque here. *)
Context {Folder FoldersStore : Type}.

Record State := {
  backend : nat -> string -> Payload -> Settled Folder;
  requests : list (string * Payload);
  foldersStore : FoldersStore;
  errorData : option string;
  successData : option string
}.

(** [getURL("FOLDERS")] and the store's [getFoldersApi] are imported. *)
Variable FOLDERS : string.
Variable getFoldersApi : bool -> M State unit.

(** [await api.post(url, payload)], giving [res.data]. *)
Definition api_post (url : string) (body : Payload) : M State Folder :=
  fun s =>
    ({| backend := backend s; requests := requests s ++ [(url, body)];
        foldersStore := foldersStore s; errorData := errorData s;
        successData := successData s |},
     backend s (length (requests s)) url body).

Definition addFoldersFn (newFolder : IPostAddFolders) : M State Folder :=
  let payload :=
    {| payload_name := name (data newFolder);
       payload_description := description (data newFolder);
       flows_list := orNil (flows (data newFolder));
       components_list := orNil (components (data newFolder)) |} in
  (await res_data <- api_post (FOLDERS ++ "/") payload ;;
   await _ <- getFoldersApi true ;;
   ret res_data)%promise.

End AddFolders.

Arguments State : clear implicits.

End PostFolders.

(** ** The collection page: [handleDeleteFolder] *)

Module CollectionPage.

(** What the handler touches: the backend behind [useDeleteFolders], the
    alert store's titles, the router's location and the console. *)
Record State := {
  backend : nat -> option string -> Settled unit;
  requests : list (option string);
  successData : option string;
  errorData : option string;
  location : string;
  console : list Error
}.

Definition setSuccessData (title : string) (s : State) : State :=
  {| backend := backend s; requests := requests s;
     successData := Some title; errorData := errorData s;
     location := location s; console := console s |}.

Definition setErrorData (title : string) (s : State) : State :=
  {| backend := backend s; requests := requests s;
     successData := successData s; errorData := Some title;
     location := location s; console := console s |}.

Definition navigate (to : string) (s : State) : State :=
  {| backend := backend s; requests := requests s;
     successData := successData s; errorData := errorData s;
     location := to; console := console s |}.

Definition console_error (err : Error) (s : State) : State :=
  {| backend := backend s; requests := requests s;
     successData := successData s; errorData := errorData s;
     location := location s; console := console s ++ [err] |}.

Record MutateOptions := {
  onSuccess : State -> State;
  onError : Error -> State -> State
}.

(** Modelled from the spec: [useDeleteFolders] and the request processor
    behind it are not in the sources.  By the spec a failure is caught at
    the request boundary and there is no retry, so the [mutate] of the
    hook runs its request, a DELETE for [folder_id], once, and then the
    callback that fits how it settled. *)
Definition mutate (folder_id : option string) (options : MutateOptions) (s : State) : State :=
  let s' := {| backend := backend s; requests := requests s ++ [folder_id];
               successData := successData s; errorData := errorData s;
               location := location s; console := console s |} in
  match backend s (length (requests s)) folder_id with
  | Resolved _ => onSuccess options s'
  | Rejected e => onError options e s'
  end.

(** [folderToEdit?.id!] is [None] while no folder is selected. *)
Definition handleDeleteFolder (folderToEdit_id : option string) : State -> State :=
  mutate folderToEdit_id
    {| onSuccess := fun s =>
         navigate "/all" (setSuccessData "Folder deleted successfully." s);
       onError := fun err s =>
         setErrorData "Error deleting folder." (console_error err s) |}.

End CollectionPage.

(** ** The node status bar (NodeStatus) *)

Module NodeStatus.

(** Modelled from the spec: the declaration of the enum [BuildStatus]
    (constants/enums) is missing.  [BUILDING], [TO_BUILD], [BUILT] and
    [INACTIVE] are the members the component compares with; [ERROR] is
    the spec's "error" state. *)
Inductive BuildStatus := BUILDING | TO_BUILD | BUILT | INACTIVE | ERROR.

Definition BuildStatus_eqb (a b : BuildStatus) : bool :=
  match a, b with
  | BUILDING, BUILDING | TO_BUILD, TO_BUILD | BUILT, BUILT
  | INACTIVE, INACTIVE | ERROR, ERROR => true
  | _, _ => false
  end.

(** [buildStatus === m]; the prop may be [undefined]. *)
Definition statusIs (buildStatus : option BuildStatus) (m : BuildStatus) : bool :=
  match buildStatus with
  | Some s => BuildStatus_eqb s m
  | None => false
  end.

(** A member of the enum is a non-empty string, hence truthy;
    [undefined] is not. *)
Definition truthy (buildStatus : option BuildStatus) : bool :=
  match buildStatus with
  | Some _ => true
  | None => false
  end.

(** [VertexBuildTypeAPI], as far as the component reads it. *)
Record VertexBuildTypeAPI := { valid : bool; duration : option string }.

(** Truthiness of [validationStatus && validationStatus.valid]. *)
Definition validAnd (validationStatus : option VertexBuildTypeAPI) : bool :=
  match validationStatus with
  | Some v => valid v
  | None => false
  end.

Definition conditionSuccess (buildStatus : option BuildStatus)
    (validationStatus : option VertexBuildTypeAPI) : bool :=
  statusIs buildStatus BUILT
  || (negb (negb (truthy buildStatus) || statusIs buildStatus TO_BUILD)
      && validAnd validationStatus).

(** The content of the status tooltip. *)
Inductive TooltipContent :=
| STATUS_BUILDING
| STATUS_INACTIVE
| STATUS_BUILD
| ValidationDetails (validationString : string) (lastRunTime : option string)
    (duration : option string).

Definition tooltipContent (buildStatus : option BuildStatus)
    (validationStatus : option VertexBuildTypeAPI)
    (validationString : string) (lastRunTime : option string) : TooltipContent :=
  if statusIs buildStatus BUILDING then STATUS_BUILDING
  else if statusIs buildStatus INACTIVE then STATUS_INACTIVE
  else match validationStatus with
       | None => STATUS_BUILD
       | Some v => ValidationDetails validationString lastRunTime (duration v)
       end.

(** What the status slot shows: the check mark with the duration, its
    first space taken out, or the icon of [useIconStatus]. *)
Inductive StatusSlot (Icon : Type) :=
| CheckMark (duration : option string)
| IconStatus (icon : Icon).
Arguments CheckMark {Icon} duration.
Arguments IconStatus {Icon} icon.

Definition durationOf (validationStatus : option VertexBuildTypeAPI) : option string :=
  match validationStatus with
  | Some v => duration v
  | None => None
  end.

(** [s.replace(" ", "")]: the first space of [s] is taken out. *)
Fixpoint replaceFirstSpace (s : string) : string :=
  match s with
  | EmptyString => EmptyString
  | String c s' => if Ascii.eqb c " " then s' else String c (replaceFirstSpace s')
  end.

Definition statusSlot {Icon} (useIconStatus : option BuildStatus -> Icon)
    (buildStatus : option BuildStatus)
    (validationStatus : option VertexBuildTypeAPI) : StatusSlot Icon :=
  if conditionSuccess buildStatus validationStatus
  then CheckMark (option_map replaceFirstSpace (durationOf validationStatus))
  else IconStatus (useIconStatus buildStatus).

(** *** The border class *)

Definition getBaseBorderClass (frozen isBuilding selected : bool) : string :=
  let className :=
    if selected && negb isBuilding
    then " border-[1.5px] border-foreground hover:shadow-node"
    else "border-[1.5px] hover:shadow-node" in
  let frozenClass := if selected then "border-ring-frozen" else "border-frozen" in
  if frozen then frozenClass else className.

(** [getSpecificClassFromBuildStatus] and [classNames] are imported. *)
Definition getNodeBorderClassName
    (getSpecificClassFromBuildStatus :
       option BuildStatus -> option VertexBuildTypeAPI -> bool -> string)
    (classNames : string -> string -> string)
    (frozen isBuilding selected : bool)
    (buildStatus : option BuildStatus)
    (validationStatus : option VertexBuildTypeAPI) : string :=
  let specificClassFromBuildStatus :=
    getSpecificClassFromBuildStatus buildStatus validationStatus isBuilding in
  let baseBorderClass := getBaseBorderClass frozen isBuilding selected in
  classNames baseBorderClass specificClassFromBuildStatus.

(** *** The nodes of the flow store *)

(** A JSON value, for the fields the component passes through. *)
#[local] Set Warnings "-register-all".
Inductive Json :=
| JNull
| JBool (b : bool)
| JNum (z : Z)
| JStr (s : string)
| JArr (l : list Json)
| JObj (fields : list (string * Json)).

(** [APIClassType] is read as a plain object: a dictionary from field
    names to values, [lf_version] among them. *)
Abbreviation APIClassType := (gmap string Json).

(** [NodeDataType]: [type], the optional [node], and the other fields. *)
Record NodeDataType := {
  type : string;
  node : option APIClassType;
  data_rest : gmap string Json
}.

(** [NodeType]: [id], [data], and the other fields of a graph node. *)
Record NodeType := {
  id : string;
  data : NodeDataType;
  node_rest : gmap string Json
}.

(** [{...o}] of an optional object: [undefined] spreads to nothing. *)
Definition spread (o : option APIClassType) : APIClassType :=
  match o with
  | Some m => m
  | None => ∅
  end.

(** The updater the effect hands to [setNode]. *)
Definition withVersion (version : string) (old : NodeType) : NodeType :=
  {| id := id old;
     data := {| type := type (data old);
                node := Some (<["lf_version" := JStr version]> (spread (node (data old))));
                data_rest := data_rest (data old) |};
     node_rest := node_rest old |}.

(** Modelled from the spec: the flow store (stores/flowStore) is missing.
    [setNode(id, update, false)] is taken by its call contract: the node
    with that [id] is replaced by what [update] returns for it, every
    other node is kept. *)
Definition setNode (nodeId : string) (update : NodeType -> NodeType)
    (nodes : list NodeType) : list NodeType :=
  List.map (fun n => if String.eqb (id n) nodeId then update n else n) nodes.

(** A call of the flow store's [setNode(id, update, isUserChange)]. *)
Inductive StoreCall :=
| SetNode (nodeId : string) (update : NodeType -> NodeType) (isUserChange : bool).

Definition runStoreCall (nodes : list NodeType) (c : StoreCall) : list NodeType :=
  match c with
  | SetNode nodeId update _ => setNode nodeId update nodes
  end.

(** The effect on [buildStatus, isBuilding]: the calls it makes, [version]
    being the dark store's version. *)
Definition versionEffectCalls (nodeId : string) (version : string)
    (buildStatus : option BuildStatus) (isBuilding : bool) : list StoreCall :=
  if statusIs buildStatus BUILT && negb isBuilding
  then [SetNode nodeId (withVersion version) false]
  else [].

(** What the effect does to the nodes of the flow store. *)
Definition versionEffect (nodeId : string) (version : string)
    (buildStatus : option BuildStatus) (isBuilding : bool)
    (nodes : list NodeType) : list NodeType :=
  fold_left runStoreCall (versionEffectCalls nodeId version buildStatus isBuilding) nodes.

(** *** Running the node *)

Inductive Call :=
| SetValidationStatusNull
| BuildFlow (stopNodeId : string)
| Track (event : string) (stopNodeId : string).

Definition handlePlayWShortcut (nodeId : string) (buildStatus : option BuildStatus)
    (isBuilding selected : bool) : list Call :=
  if statusIs buildStatus BUILDING || isBuilding || negb selected then []
  else [SetValidationStatusNull; BuildFlow nodeId].

Definition handleClickRun (nodeId : string) (buildStatus : option BuildStatus)
    (isBuilding : bool) : list Call :=
  if statusIs buildStatus BUILDING || isBuilding then []
  else [SetValidationStatusNull; BuildFlow nodeId;
        Track "Flow Build - Clicked" nodeId].

End NodeStatus.

(** ** The slider (SliderComponent) *)

Module Slider.

(** A JavaScript number: a finite value, an infinity, or NaN.  A finite
    value is the rational it denotes; comparison, [Math.min] and
    [Math.max] are exact on it. *)
Inductive number := NaN | NegInfinity | Num (q : Q) | Infinity.

Definition isNaN (n : number) : bool :=
  match n with NaN => true | _ => false end.

(** [a < b]; false as soon as one side is NaN. *)
Definition ltb (a b : number) : bool :=
  match a, b with
  | NaN, _ | _, NaN => false
  | _, NegInfinity => false
  | NegInfinity, _ => true
  | Infinity, _ => false
  | Num _, Infinity => true
  | Num x, Num y => negb (Qle_bool y x)
  end.

Definition Math_max (a b : number) : number :=
  match a, b with
  | NaN, _ | _, NaN => NaN
  | _, _ => if ltb a b then b else a
  end.

Definition Math_min (a b : number) : number :=
  match a, b with
  | NaN, _ | _, NaN => NaN
  | _, _ => if ltb b a then b else a
  end.

(** *** Props and state *)

Record RangeSpecType := {
  range_min : option Q;
  range_max : option Q;
  range_step : option Q
}.

(** The stored value: what [handleOnNewValue] was last given, a number,
    the empty string, or [undefined]. *)
Inductive Value :=
| ValNumber (n : number)
| ValEmpty
| ValUndefined.

(** [Number(value)] *)
Definition Number (v : Value) : number :=
  match v with
  | ValNumber n => n
  | ValEmpty => Num 0
  | ValUndefined => NaN
  end.

Record Props := {
  value : Value;
  disabled : bool;
  rangeSpec : option RangeSpecType
}.

(** [rangeSpec?.f ?? d] *)
Definition rangeOr (f : RangeSpecType -> option Q) (d : Q) (p : Props) : Q :=
  match rangeSpec p with
  | Some r => match f r with Some x => x | None => d end
  | None => d
  end.

Definition min (p : Props) : Q := rangeOr range_min (-2) p.
Definition max (p : Props) : Q := rangeOr range_max 2 p.
Definition step (p : Props) : Q := rangeOr range_step (1 # 100) p.

(** A call of [handleOnNewValue]. *)
Record Change := { newValue : Value; skipSnapshot : bool }.

(** The editing state of the value label. *)
Record Editing := { isEditing : bool; inputValue : string }.

(** The effect on [disabled]. *)
Definition disabledEffect (p : Props) : list Change :=
  match disabled p, value p with
  | true, ValEmpty => []
  | true, _ => [{| newValue := ValEmpty; skipSnapshot := true |}]
  | false, _ => []
  end.

(** [handleChange]: [newValue[0]] goes out as it came. *)
Definition handleChange (newValue : list number) : list Change :=
  [{| newValue := match newValue with
                  | n :: _ => ValNumber n
                  | [] => ValUndefined
                  end;
      skipSnapshot := false |}].

Definition handleInputChange (text : string) (e : Editing) : Editing :=
  {| isEditing := isEditing e; inputValue := text |}.

Section Imports.

(** What the component takes from outside its file: the built-in
    [parseFloat] and [toFixed], on doubles, and the helper
    [getMinOrMaxValue] of [sliderComponent/utils/get-min-max-value], which
    is not in the sources.  Nothing is assumed of them. *)
Variable parseFloat : string -> number.
Variable toFixed : number -> nat -> string.
Variable getMinOrMaxValue : number -> Q -> Q -> number.

Definition valueAsNumber (p : Props) : number :=
  getMinOrMaxValue (Number (value p)) (min p) (max p).

(** The [onChange] of the numeric field shown with [sliderInput]. *)
Definition sliderInput_onChange (text : string) : list Change :=
  handleChange [parseFloat text].

(** [handleInputBlur]: the calls of [handleOnNewValue], and the editing
    state it leaves. *)
Definition handleInputBlur (p : Props) (e : Editing) : list Change * Editing :=
  let newValue := parseFloat (inputValue e) in
  let changes :=
    if negb (isNaN newValue) then
      let clampedValue := Math_min (Math_max newValue (Num (min p))) (Num (max p)) in
      [{| newValue := ValNumber clampedValue; skipSnapshot := false |}]
    else [] in
  (changes, {| isEditing := false; inputValue := toFixed (valueAsNumber p) 2 |}).

Definition handleKeyDown (p : Props) (key : string) (e : Editing)
  : list Change * Editing :=
  if String.eqb key "Enter" then handleInputBlur p e
  else if String.eqb key "Escape"
  then ([], {| isEditing := false; inputValue := toFixed (valueAsNumber p) 2 |})
  else ([], e).

(** What the label shows. *)
Definition displayed (p : Props) : string := toFixed (valueAsNumber p) 2.

End Imports.

(** The parent stores what it is given: the value after a run of calls
    of [handleOnNewValue]. *)
Definition stored (p : Props) (changes : list Change) : Value :=
  fold_left (fun _ c => newValue c) changes (value p).

(** *** Decimal literals *)

Definition isWhiteSpace (c : ascii) : bool :=
  let n := N_of_ascii c in
  ((9 <=? n) && (n <=? 13) || (n =? 32))%N.

Fixpoint trimStart (s : string) : string :=
  match s with
  | String c s' => if isWhiteSpace c then trimStart s' else s
  | EmptyString => s
  end.

Definition digitOf (c : ascii) : option Z :=
  let n := N_of_ascii c in
  if ((48 <=? n) && (n <=? 57))%N then Some (Z.of_N (n - 48)) else None.

(** Reads a run of digits after the value [acc]; gives the value, the
    number of digits read, and what follows. *)
Fixpoint digits (s : string) (acc : Z) (count : nat) : Z * nat * string :=
  match s with
  | String c s' =>
      match digitOf c with
      | Some d => digits s' (10 * acc + d)%Z (S count)
      | None => (acc, count, s)
      end
  | EmptyString => (acc, count, s)
  end.

Definition sign (s : string) : bool * string :=
  match s with
  | String "-" s' => (true, s')
  | String "+" s' => (false, s')
  | _ => (false, s)
  end.

(** An exponent part counts only when a digit follows. *)
Definition exponent (s : string) : Z :=
  match s with
  | String c s' =>
      if (Ascii.eqb c "e" || Ascii.eqb c "E")%bool then
        let '(neg, s'') := sign s' in
        let '(e, n, _) := digits s'' 0%Z 0%nat in
        match n with
        | O => 0%Z
        | S _ => if neg then (- e)%Z else e
        end
      else 0%Z
  | EmptyString => 0%Z
  end.

(** [m * 10^e] *)
Definition scale (m e : Z) : Q :=
  if (0 <=? e)%Z then (m * 10 ^ e)%Z # 1
  else m # Z.to_pos (10 ^ (- e)).

(** The exact value of the longest prefix, after leading ASCII white
    space, that is a decimal literal; NaN when there is none.  For a text
    whose value is a double, such as [3], [7.5] or [-0.25], this is what
    [parseFloat] gives.  The examples read their texts with it; the
    theorems hold for any [parseFloat]. *)
Definition parseDecimal (s : string) : number :=
  let '(neg, s0) := sign (trimStart s) in
  if String.prefix "Infinity" s0 then (if neg then NegInfinity else Infinity)
  else
    let '(i, ni, s1) := digits s0 0%Z 0%nat in
    let '(m, nf, s2) :=
      match s1 with
      | String "." t => digits t i 0%nat
      | _ => (i, 0%nat, s1)
      end in
    match (ni + nf)%nat with
    | O => NaN
    | S _ => Num (scale (if neg then (- m)%Z else m) (exponent s2 - Z.of_nat nf))
    end.

End Slider.

(** ** JavaScript values, as [JSON.parse] and property reads give them *)

Module Js.

(** Numbers are integers here; a string stands for its characters. *)
#[local] Set Warnings "-register-all".
Inductive value :=
| Undefined
| Null
| Bool (b : bool)
| Number (z : Z)
| Str (s : string)
| Arr (items : list value)
| Obj (fields : list (string * value)).

(** Truthiness. *)
Definition truthy (v : value) : bool :=
  match v with
  | Undefined | Null => false
  | Bool b => b
  | Number z => negb (z =? 0)%Z
  | Str s => match s with EmptyString => false | _ => true end
  | Arr _ | Obj _ => true
  end.

(** The last field of that name: a later key of an object literal
    overrides an earlier one. *)
Fixpoint lookup (fields : list (string * value)) (k : string) : option value :=
  match fields with
  | [] => None
  | (k', v) :: rest =>
      match lookup rest k with
      | Some v' => Some v'
      | None => if String.eqb k' k then Some v else None
      end
  end.

(** [v.k], for a key that strings and arrays do not have: [None] when the
    read throws (on [undefined] and [null]). *)
Definition prop (v : value) (k : string) : option value :=
  match v with
  | Undefined | Null => None
  | Obj fields =>
      match lookup fields k with
      | Some x => Some x
      | None => Some Undefined
      end
  | _ => Some Undefined
  end.

(** [v?.k] *)
Definition optProp (v : value) (k : string) : value :=
  match prop v k with
  | Some x => x
  | None => Undefined
  end.

(** [v === "s"] *)
Definition isStr (v : value) (s : string) : bool :=
  match v with
  | Str s' => String.eqb s' s
  | _ => false
  end.

Definition join (sep : string) (parts : list string) : string :=
  match parts with
  | [] => EmptyString
  | p :: rest => fold_left (fun acc x => acc ++ sep ++ x)%string rest p
  end.

(** The string a value becomes under ["..." + v]. *)
Fixpoint toString (v : value) : string :=
  match v with
  | Undefined => "undefined"
  | Null => "null"
  | Bool true => "true"
  | Bool false => "false"
  | Number z => NilZero.string_of_int (Z.to_int z)
  | Str s => s
  | Arr items =>
      join "," (List.map (fun x =>
                            match x with
                            | Undefined | Null => EmptyString
                            | _ => toString x
                            end) items)
  | Obj _ => "[object Object]"
  end.

(** The own enumerable properties that [{...v}] copies: the fields of an
    object, the elements of an array and the characters of a string under
    their indices, nothing for any other value. *)
Fixpoint indexed {A} (i : nat) (l : list A) : list (string * A) :=
  match l with
  | [] => []
  | x :: rest => (NilZero.string_of_uint (Nat.to_uint i), x) :: indexed (S i) rest
  end.

Definition spread (v : value) : list (string * value) :=
  match v with
  | Obj fields => fields
  | Arr items => indexed 0 items
  | Str s =>
      indexed 0 (List.map (fun c => Str (String c EmptyString)) (list_ascii_of_string s))
  | _ => []
  end.

End Js.

(** ** The voice assistant (VoiceAssistant) *)

Module VoiceAssistant.

Import Js.

(** An edge of the flow store, as far as the handler reads and writes it:
    [edge.data.targetHandle.id], [edge.animated], [edge.className]. *)
Record EdgeType := {
  edge_id : string;
  targetHandle_id : string;
  animated : option bool;
  className : option string
}.

Section Handlers.

(** [Chunk] is an audio buffer ready to be played; [decode] stands for the
    body of the [try] up to the buffer: [base64ToFloat32Array],
    [createBuffer] and the two [copyToChannel], [None] when one of them
    throws.  [postThrows] tells whether [port.postMessage] throws for a
    chunk. *)
Context {Chunk : Type}.
Variable decode : value -> option Chunk.
Variable postThrows : Chunk -> bool.

(** What the handlers call on the stores, the console, the worklet port
    and the socket. *)
Inductive Call :=
| ConsoleLog (label : string) (v : value)
| ConsoleError (label : string)
| SetIsBuilding (b : bool)
| SetLockChat (b : bool)
| UpdateBuildStatus (ids : list value) (status : NodeStatus.BuildStatus)
| SetEdges (newEdges : list EdgeType)
| AddDataToFlowPool (data : list (string * value)) (nodeId : value)
| UpdateEdgesRunningByNodes (ids : list value) (running : bool)
| RevertBuiltStatusFromBuilding
| ClearEdgesRunningByNodes
| AddMessage (data : value)
| PostPlayback (audio : Chunk)
| WsSend (type : string) (audio : string)
| WsClose
| Disconnect (ref : string).

(** The flow store is not in the sources.  [flowStoreEdges cs] stands for
    the [edges] of the state that [useFlowStore.getState()] returns once
    the calls [cs] have been made; what the methods of the store do to
    their store is left to it, and the handlers only record that they call
    them. *)
Variable flowStoreEdges : list Call -> list EdgeType.

(** The component: its state, its refs (present or [null]), and the calls
    made so far. *)
Record State := {
  message : string;
  status : string;
  showApiKeyModal : bool;
  isRecording : bool;
  audioContext : bool;
  ws : bool;
  processor : bool;
  microphone : bool;
  analyser : bool;
  audioQueue : list Chunk;
  isPlaying : bool;
  calls : list Call
}.

Definition call (c : Call) (s : State) : State :=
  {| message := message s; status := status s;
     showApiKeyModal := showApiKeyModal s; isRecording := isRecording s;
     audioContext := audioContext s; ws := ws s; processor := processor s;
     microphone := microphone s; analyser := analyser s;
     audioQueue := audioQueue s; isPlaying := isPlaying s;
     calls := calls s ++ [c] |}.

Definition setMessage (m : string) (s : State) : State :=
  {| message := m; status := status s;
     showApiKeyModal := showApiKeyModal s; isRecording := isRecording s;
     audioContext := audioContext s; ws := ws s; processor := processor s;
     microphone := microphone s; analyser := analyser s;
     audioQueue := audioQueue s; isPlaying := isPlaying s;
     calls := calls s |}.

Definition setStatus (m : string) (s : State) : State :=
  {| message := message s; status := m;
     showApiKeyModal := showApiKeyModal s; isRecording := isRecording s;
     audioContext := audioContext s; ws := ws s; processor := processor s;
     microphone := microphone s; analyser := analyser s;
     audioQueue := audioQueue s; isPlaying := isPlaying s;
     calls := calls s |}.

Definition setShowApiKeyModal (b : bool) (s : State) : State :=
  {| message := message s; status := status s;
     showApiKeyModal := b; isRecording := isRecording s;
     audioContext := audioContext s; ws := ws s; processor := processor s;
     microphone := microphone s; analyser := analyser s;
     audioQueue := audioQueue s; isPlaying := isPlaying s;
     calls := calls s |}.

Definition setIsRecording (b : bool) (s : State) : State :=
  {| message := message s; status := status s;
     showApiKeyModal := showApiKeyModal s; isRecording := b;
     audioContext := audioContext s; ws := ws s; processor := processor s;
     microphone := microphone s; analyser := analyser s;
     audioQueue := audioQueue s; isPlaying := isPlaying s;
     calls := calls s |}.

Definition setQueue (q : list Chunk) (s : State) : State :=
  {| message := message s; status := status s;
     showApiKeyModal := showApiKeyModal s; isRecording := isRecording s;
     audioContext := audioContext s; ws := ws s; processor := processor s;
     microphone := microphone s; analyser := analyser s;
     audioQueue := q; isPlaying := isPlaying s;
     calls := calls s |}.

Definition setIsPlaying (b : bool) (s : State) : State :=
  {| message := message s; status := status s;
     showApiKeyModal := showApiKeyModal s; isRecording := isRecording s;
     audioContext := audioContext s; ws := ws s; processor := processor s;
     microphone := microphone s; analyser := analyser s;
     audioQueue := audioQueue s; isPlaying := b;
     calls := calls s |}.

(** The four refs that [stopRecording] clears. *)
Definition setRefs (mic proc ana sock : bool) (s : State) : State :=
  {| message := message s; status := status s;
     showApiKeyModal := showApiKeyModal s; isRecording := isRecording s;
     audioContext := audioContext s; ws := sock; processor := proc;
     microphone := mic; analyser := ana;
     audioQueue := audioQueue s; isPlaying := isPlaying s;
     calls := calls s |}.

(** [playNextAudioChunk] *)
Definition playNextAudioChunk (s : State) : State :=
  match audioQueue s with
  | [] => setIsPlaying false s
  | audioBuffer :: rest =>
      let s := setQueue rest (setIsPlaying true s) in
      if processor s then
        if postThrows audioBuffer
        then setIsPlaying false (call (ConsoleError "Error playing audio:") s)
        else call (PostPlayback audioBuffer) s
      else s
  end.

(** The map over the edges in the [start_vertex] case.  The source writes
    to the edge object itself, so the list that it hands to [setEdges]
    holds the objects of the store. *)
Definition markRunning (vertex_id : value) (edge : EdgeType) : EdgeType :=
  if isStr vertex_id (targetHandle_id edge)
  then {| edge_id := edge_id edge; targetHandle_id := targetHandle_id edge;
          animated := Some true; className := Some "running" |}
  else edge.

(** A handler ends normally, or a [TypeError] escapes it; the state is the
    one reached either way. *)
Inductive Completion := Normal | Throws.

(** The inner [switch (buildData.event)]; [flowStore_edges] is
    [flowStore.edges], of the state read when the handler began. *)
Definition onBuildProgress (flowStore_edges : list EdgeType) (buildData : value)
    (s : State) : State * Completion :=
  match prop buildData "event" with
  | None => (s, Throws)
  | Some event =>
      let vertex_id := optProp buildData "vertex_id" in
      if isStr event "start" then
        (call (SetLockChat true) (call (SetIsBuilding true) s), Normal)
      else if isStr event "start_vertex" then
        let s := call (UpdateBuildStatus [vertex_id] NodeStatus.BUILDING) s in
        let edges := flowStore_edges in
        let newEdges := List.map (markRunning vertex_id) edges in
        (call (SetEdges newEdges) s, Normal)
      else if isStr event "end_vertex" then
        let s := call (UpdateBuildStatus [vertex_id] NodeStatus.BUILT) s in
        match prop (optProp buildData "data") "build_data" with
        | None => (s, Throws)
        | Some build_data =>
            let data := spread build_data
                        ++ [("run_id", optProp buildData "run_id");
                                   ("id", vertex_id); ("valid", Bool true)] in
            (call (UpdateEdgesRunningByNodes [vertex_id] false)
               (call (AddDataToFlowPool data vertex_id) s), Normal)
        end
      else if isStr event "error" then
        (call (UpdateEdgesRunningByNodes [vertex_id] false)
           (call (UpdateBuildStatus [vertex_id] NodeStatus.ERROR) s), Normal)
      else if isStr event "end" then
        (call ClearEdgesRunningByNodes
           (call RevertBuiltStatusFromBuilding
              (call (SetLockChat false) (call (SetIsBuilding false) s))), Normal)
      else if isStr event "add_message" then
        (call (AddMessage (optProp buildData "data")) s, Normal)
      else (s, Normal)
  end.

(** [handleWebSocketMessage], on the value that [JSON.parse(event.data)]
    gave. *)
Definition handleWebSocketMessage (data : value) (s : State) : State * Completion :=
  let flowStore_edges := flowStoreEdges (calls s) in
  match prop data "type" with
  | None => (s, Throws)
  | Some type =>
      if isStr type "response.content_part.added" then
        let part := optProp data "part" in
        if isStr (optProp part "type") "text" && truthy (optProp part "text")
        then (setMessage (message s ++ toString (optProp part "text")) s, Normal)
        else (s, Normal)
      else if isStr type "response.audio.delta" then
        if truthy (optProp data "delta") && audioContext s then
          match decode (optProp data "delta") with
          | Some audioBuffer =>
              let s := setQueue (audioQueue s ++ [audioBuffer]) s in
              (if isPlaying s then s else playNextAudioChunk s, Normal)
          | None => (call (ConsoleError "Error processing audio response:") s, Normal)
          end
        else (s, Normal)
      else if isStr type "flow.build.progress" then
        onBuildProgress flowStore_edges (optProp data "data")
          (call (ConsoleLog "flow.build.progress" data) s)
      else if isStr type "error" then
        let s := call (ConsoleError "Server error:") s in
        let s := if isStr (optProp data "code") "api_key_missing"
                 then setShowApiKeyModal true s else s in
        (setStatus ("Error: " ++ toString (optProp data "error")) s, Normal)
      else (s, Normal)
  end.

(** [JSON.parse], [None] when it throws a [SyntaxError]. *)
Variable JSON_parse : string -> option value.

(** The [onmessage] of the socket, on the text of a message: the handler
    begins with [JSON.parse(event.data)]. *)
Definition onmessage (event_data : string) (s : State) : State * Completion :=
  match JSON_parse event_data with
  | Some data => handleWebSocketMessage data s
  | None => (s, Throws)
  end.

(** The socket that [startConversation] opens, the only one of the
    component: its address and what it does with a message. *)
Record WebSocket := {
  socket_url : string;
  socket_onmessage : string -> State -> State * Completion
}.

Definition startConversation (flowId : string) : WebSocket :=
  {| socket_url := "ws://localhost:7860/api/v1/voice/ws/" ++ flowId;
     socket_onmessage := onmessage |}.

(** A message of the worklet. *)
Record WorkletMessage := {
  worklet_type : string;
  worklet_audio : option string
}.

(** The [onmessage] of the worklet port; [worklet_audio] is the base64
    text of the recorded samples, when the message carries some. *)
Definition handleWorkletMessage (m : WorkletMessage) (s : State) : State :=
  match String.eqb (worklet_type m) "input", worklet_audio m, ws s with
  | true, Some base64Audio, true =>
      call (WsSend "input_audio_buffer.append" base64Audio) s
  | _, _, _ =>
      if String.eqb (worklet_type m) "done" then
        match audioQueue s with
        | _ :: _ => playNextAudioChunk s
        | [] => setIsPlaying false s
        end
      else s
  end.

(** [stopRecording] *)
Definition stopRecording (s : State) : State :=
  let s := if microphone s then call (Disconnect "microphone") s else s in
  let s := if processor s then call (Disconnect "processor") s else s in
  let s := if analyser s then call (Disconnect "analyser") s else s in
  let s := if ws s then call WsClose s else s in
  setIsRecording false (setRefs false false false false s).

End Handlers.

Arguments Call : clear implicits.
Arguments State : clear implicits.
Arguments WebSocket : clear implicits.

End VoiceAssistant.

(** ** The option buttons of the slider *)

Module SliderButtons.

Import Slider.

Definition THRESHOLDS : list Q := [25 # 100; 5 # 10; 75 # 100; 1 # 1].
Definition BACKGROUND_COLORS : list string := ["#4f46e5"; "#7c3aed"; "#a21caf"; "#c026d3"].
Definition TEXT_COLORS : list string := ["#fff"; "#fff"; "#fff"; "#fff"].

Definition DARK_COLOR_BACKGROUND := "#27272a".
Definition DARK_COLOR_TEXT := "#52525b".
Definition LIGHT_COLOR_BACKGROUND := "#e4e4e7".
Definition LIGHT_COLOR_TEXT := "#52525b".

Inductive ColorType := background | text.

(** [a <= b]; false as soon as one side is NaN. *)
Definition leb (a b : number) : bool :=
  match a, b with
  | NaN, _ | _, NaN => false
  | _, _ => negb (ltb b a)
  end.

Definition defaultColor (isDark : bool) (colorType : ColorType) : string :=
  if isDark
  then match colorType with
       | background => DARK_COLOR_BACKGROUND
       | text => DARK_COLOR_TEXT
       end
  else match colorType with
       | background => LIGHT_COLOR_BACKGROUND
       | text => LIGHT_COLOR_TEXT
       end.

(** The [for] loop of [getColor], over the indices it still has to try. *)
Fixpoint getColorLoop (indices : list nat) (colors : list string)
    (optionValue : nat) (normalizedValue : number) : option string :=
  match indices with
  | [] => None
  | i :: rest =>
      if ltb (Num (nth (i - 1) THRESHOLDS (0 # 1))) normalizedValue
         && leb normalizedValue (Num (nth i THRESHOLDS (0 # 1)))
         && (optionValue =? i)%nat
      then Some (nth i colors EmptyString)
      else getColorLoop rest colors optionValue normalizedValue
  end.

Definition getColor (isDark : bool) (optionValue : nat) (normalizedValue : number)
    (colorType : ColorType) : string :=
  let colors := match colorType with
                | background => BACKGROUND_COLORS
                | text => TEXT_COLORS
                end in
  if leb normalizedValue (Num (nth 0 THRESHOLDS (0 # 1))) && (optionValue =? 0)%nat
  then nth 0 colors EmptyString
  else match getColorLoop (seq 1 (length THRESHOLDS - 1)) colors optionValue
               normalizedValue with
       | Some color => color
       | None => defaultColor isDark colorType
       end.

End SliderButtons.

(** ** Replacing the class of a node (useHandleNodeClass) *)

Module HandleNodeClass.

Import NodeStatus.

(** [if (type)] on an optional string. *)
Definition truthy (type : option string) : bool :=
  match type with
  | Some (String _ _) => true
  | _ => false
  end.

(** The updater given to [setNode]: a copy of the old node with the new
    class as [data.node], and the new type when one is given.  It also
    calls [updateNodeInternals(nodeId)], of the graph library, which is
    left out. *)
Definition withNodeClass (newNodeClass : APIClassType) (type : option string)
    (oldNode : NodeType) : NodeType :=
  let newNode := oldNode in
  let data1 := {| NodeStatus.type := NodeStatus.type (data newNode);
                  node := Some newNodeClass;
                  data_rest := data_rest (data newNode) |} in
  let data2 := if truthy type
               then {| NodeStatus.type := match type with Some t => t | None => EmptyString end;
                       node := node data1; data_rest := data_rest data1 |}
               else data1 in
  {| id := id newNode; data := data2; node_rest := node_rest newNode |}.

Section Setter.

(** [setNode] is the [setMyNode] of the caller when one is given, and the
    [setNode] of the flow store otherwise; the hook calls it with the id
    and the updater, and with nothing else.  [Store] is whatever the
    setter writes to. *)
Context {Store : Type}.
Variable setNode : string -> (NodeType -> NodeType) -> Store -> Store.

Definition handleNodeClass (nodeId : string) (newNodeClass : APIClassType)
    (type : option string) : Store -> Store :=
  setNode nodeId (withNodeClass newNodeClass type).

End Setter.

End HandleNodeClass.

(** ** The folder buttons of the sidebar (SideBarFoldersButtonsComponent) *)

Module SideBarFolders.

(** [s.split("/")], the piece read so far being [piece]. *)
Fixpoint splitFrom (piece : string) (s : string) : list string :=
  match s with
  | EmptyString => [piece]
  | String c rest =>
      if Ascii.eqb c "/" then piece :: splitFrom EmptyString rest
      else splitFrom (piece ++ String c EmptyString) rest
  end.

Definition split (s : string) : list string := splitFrom EmptyString s.

(** [l.includes(x)] *)
Definition includes (l : list string) (x : string) : bool :=
  existsb (String.eqb x) l.

Definition urlWithoutPath (pathname : string) : bool :=
  (length (split pathname) <? 4)%nat.

(** [checkPathName]; the id of the user's own collection is [None] until
    the folder store has it. *)
Definition checkPathName (pathname : string) (myCollectionId : option string)
    (itemId : string) : bool :=
  let same := match myCollectionId with
              | Some m => String.eqb itemId m
              | None => false
              end in
  if urlWithoutPath pathname && same then true
  else includes (split pathname) itemId.

(** The class of the button of a folder: the marked one when
    [checkPathName] holds. *)
Definition folderClass (pathname : string) (myCollectionId : option string)
    (itemId : string) : string :=
  if checkPathName pathname myCollectionId itemId
  then "border border-border bg-muted hover:bg-muted"
  else "border hover:bg-transparent lg:border-transparent lg:hover:border-border".

(** The icons of the buttons in the row of the folder at [index]. *)
Definition rowButtons (index : nat) : list string :=
  (if (0 <? index)%nat then ["trash"] else [])
  ++ (if (0 <? index)%nat then ["pencil"] else [])
  ++ ["Download"].

End SideBarFolders.

(* ================================================================== *)
(** * Part II: properties *)
(* ================================================================== *)

Example addQueryParams_ex1 :
  FlowsQuery.addQueryParams "/api/v1/flows/"
    {| FlowsQuery.components_only := Some true; FlowsQuery.get_all := Some true;
       FlowsQuery.header_flows := Some false; FlowsQuery.folder_id := Some "a b/c";
       FlowsQuery.remove_example_flows := None;
       FlowsQuery.page := Some 0%Z; FlowsQuery.size := Some 20%Z |}
  = "/api/v1/flows/?components_only=true&get_all=true&folder_id=a+b%2Fc&size=20".
Proof. reflexivity. Qed.

Example parseDecimal_ex :
  Slider.parseDecimal "  -12.50e1x" = Slider.Num (-1250 # 10)
  /\ Slider.parseDecimal "abc" = Slider.NaN
  /\ Slider.parseDecimal "" = Slider.NaN
  /\ Slider.parseDecimal "5." = Slider.Num (5 # 1)
  /\ Slider.parseDecimal ".5" = Slider.Num (5 # 10)
  /\ Slider.parseDecimal "1e" = Slider.Num (1 # 1)
  /\ Slider.parseDecimal "2e3" = Slider.Num (2000 # 1)
  /\ Slider.parseDecimal "-Infinity" = Slider.NegInfinity.
Proof. repeat split; reflexivity. Qed.

(** ** The chat send button *)

Section ChatButtonProperties.

Import ChatButton.

(** Exactly one of three flags holds. *)
Definition exactlyOne (a b c : bool) : bool :=
  (a && negb b && negb c) || (negb a && b && negb c) || (negb a && negb b && c).

(** The props with no input field, an unlocked chat and one file still
    uploading. *)
Definition uploadingWithoutInput : ButtonSendWrapperProps :=
  {| lockChat := false; noInput := true; chatValue := "";
     files := [{| loading := true |}] |}.

Lemma someLoading_false (fs : list FilePreviewType) :
  someLoading fs = false <-> Forall (fun f => loading f = false) fs.
Proof.
  unfold someLoading. induction fs as [|f fs IH]; simpl.
  - split; [constructor | reflexivity].
  - rewrite orb_false_iff, IH. split.
    + intros [Hf Hfs]. constructor; assumption.
    + intros H. inversion H; subst. split; assumption.
Qed.

(** The three conditions partition the states except where a file is
    uploading while the chat is unlocked and the flow has no input. *)
Lemma exactlyOne_iff (p : ButtonSendWrapperProps) :
  exactlyOne (showStopButton p) (showPlayButton p) (showSendButton p) = true
  <-> ~ (lockChat p = false /\ noInput p = true /\ someLoading (files p) = true).
Proof.
  unfold exactlyOne, showStopButton, showPlayButton, showSendButton.
  destruct (lockChat p), (noInput p), (someLoading (files p)); simpl;
    split; intros H; try reflexivity; try discriminate;
    try (intros [? [? ?]]; discriminate);
    exfalso; apply H; repeat split.
Qed.

(** C3: with the chat unlocked, no input field and a file still
    uploading, the stop and the play condition hold together, and the
    button renders both the stop and the play icon. *)
Theorem showButtons_stop_and_play_overlap :
  showStopButton uploadingWithoutInput = true
  /\ showPlayButton uploadingWithoutInput = true
  /\ showSendButton uploadingWithoutInput = false
  /\ exactlyOne (showStopButton uploadingWithoutInput)
                (showPlayButton uploadingWithoutInput)
                (showSendButton uploadingWithoutInput) = false
  /\ icons uploadingWithoutInput = ["Square"; "Zap"].
Proof. repeat split; reflexivity. Qed.

(** A disabled button is one on which the handler would call nothing. *)
Lemma click_handleClick (p : ButtonSendWrapperProps) (isBuilding : bool) :
  click p isBuilding = handleClick p isBuilding.
Proof.
  unfold click, handleClick, disabled, showStopButton.
  destruct (lockChat p), isBuilding, (someLoading (files p)); reflexivity.
Qed.

(** C6: a click calls [send] exactly when the chat is not locked and no
    file is uploading; in every other state it calls [stopBuilding] when
    a build is running and nothing otherwise. *)
Theorem handleClick_send_iff_idle (p : ButtonSendWrapperProps) (isBuilding : bool) :
  click p isBuilding =
    (if lockChat p || someLoading (files p)
     then (if isBuilding then [StopBuilding] else [])
     else [Send])
  /\ handleClick p isBuilding = click p isBuilding
  /\ (In Send (click p isBuilding)
      <-> lockChat p = false /\ Forall (fun f => loading f = false) (files p))
  /\ (In StopBuilding (click p isBuilding)
      <-> (lockChat p = true \/ Exists (fun f => loading f = true) (files p))
          /\ isBuilding = true).
Proof.
  rewrite click_handleClick.
  assert (Hex : someLoading (files p) = true
                <-> Exists (fun f => loading f = true) (files p)).
  { unfold someLoading. rewrite existsb_exists, Stdlib.Lists.List.Exists_exists. reflexivity. }
  pose proof (someLoading_false (files p)) as Hall.
  unfold handleClick, showStopButton.
  destruct (lockChat p), (someLoading (files p)), isBuilding; simpl;
    (split; [reflexivity | split; [reflexivity | split; split]]);
    intros H;
    repeat match goal with
      | H : _ /\ _ |- _ => destruct H
      | H : _ \/ _ |- _ => destruct H
      | H : False |- _ => destruct H
      | H : Send = StopBuilding |- _ => discriminate H
      | H : StopBuilding = Send |- _ => discriminate H
      | H : true = false |- _ => discriminate H
      | H : false = true |- _ => discriminate H
      end;
    try (apply Hall in H; discriminate H);
    try (apply Hex in H; discriminate H);
    try (match goal with H : Forall _ _ |- _ => apply Hall in H; discriminate H end);
    try (match goal with H : Exists _ _ |- _ => apply Hex in H; discriminate H end);
    try (left; reflexivity);
    try (split; [first [reflexivity | apply Hall; reflexivity] | ]);
    try (split; [first [left; reflexivity | right; apply Hex; reflexivity] | reflexivity]);
    try reflexivity; try (apply Hall; reflexivity).
Qed.

End ChatButtonProperties.

(** ** The query string of the flows request *)

Section AddQueryParamsProperties.

Import FlowsQuery.

(** The names [addQueryParams] can append, in append order. *)
Definition fieldNames : list string :=
  ["components_only"; "get_all"; "header_flows"; "folder_id";
   "remove_example_flows"; "page"; "size"].

(** No field of the params is truthy. *)
Definition allFalsy (p : GetFlowsParams) : Prop :=
  components_only p <> Some true /\ get_all p <> Some true
  /\ header_flows p <> Some true
  /\ (folder_id p = None \/ folder_id p = Some "")
  /\ remove_example_flows p <> Some true
  /\ (page p = None \/ page p = Some 0%Z)
  /\ (size p = None \/ size p = Some 0%Z).

Definition optional (c : bool) (name : string) : list string :=
  if c then [name] else [].

Lemma truthyBool_iff (b : option bool) : truthyBool b = true <-> b = Some true.
Proof. destruct b as [[|]|]; simpl; split; congruence. Qed.

Lemma truthyString_iff (s : option string) :
  truthyString s = true <-> exists x, s = Some x /\ x <> "".
Proof.
  destruct s as [[|c x]|]; simpl; split; try discriminate.
  - intros [x [H Hx]]. inversion H; subst. contradiction.
  - intros _. exists (String c x). split; [reflexivity | discriminate].
  - reflexivity.
  - intros [x [H _]]. discriminate.
Qed.

Lemma truthyNumber_iff (n : option Z) :
  truthyNumber n = true <-> exists z, n = Some z /\ z <> 0%Z.
Proof.
  destruct n as [z|]; simpl.
  - rewrite negb_true_iff, Z.eqb_neq. split.
    + intros H. exists z. split; [reflexivity | assumption].
    + intros [z' [H Hz]]. inversion H; subst. assumption.
  - split; [discriminate | intros [z [H _]]; discriminate].
Qed.

(** The names in [queryParams], field by field. *)
Lemma queryParams_names (p : GetFlowsParams) :
  List.map fst (queryParams p) =
    optional (truthyBool (components_only p)) "components_only"
    ++ optional (truthyBool (get_all p)) "get_all"
    ++ optional (truthyBool (header_flows p)) "header_flows"
    ++ optional (truthyString (folder_id p)) "folder_id"
    ++ optional (truthyBool (remove_example_flows p)) "remove_example_flows"
    ++ optional (truthyNumber (page p)) "page"
    ++ optional (truthyNumber (size p)) "size".
Proof.
  unfold queryParams, appendIf, UrlSearchParams.append, optional.
  destruct (truthyBool (components_only p)), (truthyBool (get_all p)),
    (truthyBool (header_flows p)), (truthyString (folder_id p)),
    (truthyBool (remove_example_flows p)), (truthyNumber (page p)),
    (truthyNumber (size p)); reflexivity.
Qed.

Lemma In_optional (c : bool) (name x : string) :
  In x (optional c name) <-> c = true /\ x = name.
Proof.
  destruct c; simpl; split.
  - intros [H|[]]. split; [reflexivity | symmetry; assumption].
  - intros [_ H]. left. symmetry. assumption.
  - intros [].
  - intros [H _]. discriminate.
Qed.

(** A name is in [queryParams] exactly when it is the name of a truthy
    field. *)
Lemma In_queryParams (p : GetFlowsParams) (x : string) :
  In x (List.map fst (queryParams p)) <->
    (truthyBool (components_only p) = true /\ x = "components_only")
    \/ (truthyBool (get_all p) = true /\ x = "get_all")
    \/ (truthyBool (header_flows p) = true /\ x = "header_flows")
    \/ (truthyString (folder_id p) = true /\ x = "folder_id")
    \/ (truthyBool (remove_example_flows p) = true /\ x = "remove_example_flows")
    \/ (truthyNumber (page p) = true /\ x = "page")
    \/ (truthyNumber (size p) = true /\ x = "size").
Proof.
  rewrite queryParams_names.
  repeat rewrite in_app_iff. repeat rewrite In_optional. reflexivity.
Qed.

Lemma length_append (a b : string) :
  String.length (a ++ b)%string = (String.length a + String.length b)%nat.
Proof. induction a as [|c a IH]; simpl; [reflexivity | rewrite IH; reflexivity]. Qed.

Lemma append_not_empty (a b : string) (c : ascii) : (a ++ String c b)%string <> "".
Proof. destruct a; discriminate. Qed.

Lemma pair_not_empty (nv : string * string) : UrlSearchParams.pair nv <> "".
Proof. unfold UrlSearchParams.pair. apply append_not_empty. Qed.

(** The serialization is empty only for no pair at all. *)
Lemma toString_empty_iff (q : UrlSearchParams.t) :
  UrlSearchParams.toString q = "" <-> q = [].
Proof.
  destruct q as [|nv [|nv' q]]; simpl; split; try reflexivity; try discriminate.
  - intros H. exfalso. exact (pair_not_empty nv H).
  - intros H. exfalso. exact (append_not_empty _ _ _ H).
Qed.

Lemma addQueryParams_cases (url : string) (p : GetFlowsParams) :
  (queryParams p = [] /\ addQueryParams url p = url)
  \/ (queryParams p <> []
      /\ addQueryParams url p
         = (url ++ "?" ++ UrlSearchParams.toString (queryParams p))%string).
Proof.
  unfold addQueryParams.
  destruct (UrlSearchParams.toString (queryParams p)) eqn:E.
  - left. split; [apply toString_empty_iff; exact E | reflexivity].
  - right. split; [| reflexivity].
    intros H. apply toString_empty_iff in H. congruence.
Qed.

Lemma allFalsy_iff (p : GetFlowsParams) : allFalsy p <-> queryParams p = [].
Proof.
  split.
  - intros (H1 & H2 & H3 & H4 & H5 & H6 & H7).
    assert (E : List.map fst (queryParams p) = []).
    { rewrite queryParams_names.
      rewrite <- truthyBool_iff in H1, H2, H3, H5.
      apply not_true_is_false in H1, H2, H3, H5. rewrite H1, H2, H3, H5.
      assert (E4 : truthyString (folder_id p) = false)
        by (destruct H4 as [-> | ->]; reflexivity).
      assert (E6 : truthyNumber (page p) = false)
        by (destruct H6 as [-> | ->]; reflexivity).
      assert (E7 : truthyNumber (size p) = false)
        by (destruct H7 as [-> | ->]; reflexivity).
      rewrite E4, E6, E7. reflexivity. }
    destruct (queryParams p); [reflexivity | discriminate].
  - intros E.
    assert (N : forall x, ~ In x (List.map fst (queryParams p)))
      by (rewrite E; intros x []).
    assert (F : forall c name, (c = true -> In name (List.map fst (queryParams p)))
                               -> c = false).
    { intros [|] name H; [exfalso; apply (N name), H|]; reflexivity. }
    unfold allFalsy. repeat split.
    + rewrite <- truthyBool_iff, not_true_iff_false.
      apply (F _ "components_only"). intros H. apply In_queryParams. tauto.
    + rewrite <- truthyBool_iff, not_true_iff_false.
      apply (F _ "get_all"). intros H. apply In_queryParams. tauto.
    + rewrite <- truthyBool_iff, not_true_iff_false.
      apply (F _ "header_flows"). intros H. apply In_queryParams. tauto.
    + assert (H : truthyString (folder_id p) = false).
      { apply (F _ "folder_id"). intros H. apply In_queryParams. tauto. }
      destruct (folder_id p) as [[|c s]|]; [right | discriminate | left]; reflexivity.
    + rewrite <- truthyBool_iff, not_true_iff_false.
      apply (F _ "remove_example_flows"). intros H. apply In_queryParams. tauto.
    + assert (H : truthyNumber (page p) = false).
      { apply (F _ "page"). intros H. apply In_queryParams. tauto. }
      destruct (page p) as [[| |]|]; [right | discriminate | discriminate | left];
        reflexivity.
    + assert (H : truthyNumber (size p) = false).
      { apply (F _ "size"). intros H. apply In_queryParams. tauto. }
      destruct (size p) as [[| |]|]; [right | discriminate | discriminate | left];
        reflexivity.
Qed.

Ltac names_iff :=
  rewrite In_queryParams;
  repeat rewrite truthyBool_iff;
  rewrite truthyString_iff; repeat rewrite truthyNumber_iff;
  split;
  [ intros H;
    repeat match goal with
      | H : _ \/ _ |- _ => destruct H
      | H : _ /\ _ |- _ => destruct H
      end;
    try discriminate; assumption
  | intros H; tauto ].

(** C4: a query parameter is appended for a field exactly when the field
    is truthy, under the field's own name;
    with no truthy field the URL comes back unchanged, otherwise it is
    the URL, a question mark and the serialized parameters; a [page] or
    [size] of 0 is not appended. *)
Theorem addQueryParams_appends_truthy_fields (url : string) (p : GetFlowsParams) :
  let names := List.map fst (queryParams p) in
  (In "components_only" names <-> components_only p = Some true)
  /\ (In "get_all" names <-> get_all p = Some true)
  /\ (In "header_flows" names <-> header_flows p = Some true)
  /\ (In "folder_id" names <-> exists s, folder_id p = Some s /\ s <> "")
  /\ (In "remove_example_flows" names <-> remove_example_flows p = Some true)
  /\ (In "page" names <-> exists z, page p = Some z /\ z <> 0%Z)
  /\ (In "size" names <-> exists z, size p = Some z /\ z <> 0%Z)
  /\ (forall x, In x names -> In x fieldNames)
  /\ (allFalsy p <-> addQueryParams url p = url)
  /\ (~ allFalsy p <->
      addQueryParams url p
      = (url ++ "?" ++ UrlSearchParams.toString (queryParams p))%string
      /\ UrlSearchParams.toString (queryParams p) <> "")
  /\ (page p = Some 0%Z -> ~ In "page" names)
  /\ (size p = Some 0%Z -> ~ In "size" names).
Proof.
  intros names. subst names.
  assert (Hpage : In "page" (List.map fst (queryParams p))
                  <-> exists z, page p = Some z /\ z <> 0%Z) by names_iff.
  assert (Hsize : In "size" (List.map fst (queryParams p))
                  <-> exists z, size p = Some z /\ z <> 0%Z) by names_iff.
  assert (Hself : forall q : string, (url ++ "?" ++ q)%string <> url).
  { intros q H. apply (f_equal String.length) in H.
    rewrite length_append in H. simpl in H. lia. }
  repeat match goal with |- _ /\ _ => split end;
    try assumption; try names_iff.
  - intros x. rewrite In_queryParams. unfold fieldNames. simpl.
    intros H.
    repeat match goal with
      | H : _ \/ _ |- _ => destruct H
      | H : _ /\ _ |- _ => destruct H
      end; subst; tauto.
  - rewrite allFalsy_iff.
    destruct (addQueryParams_cases url p) as [[E H] | [E H]]; rewrite H.
    + tauto.
    + split; [contradiction | intros H'; exfalso; exact (Hself _ H')].
  - rewrite allFalsy_iff.
    destruct (addQueryParams_cases url p) as [[E H] | [E H]]; rewrite H.
    + rewrite E. simpl. split; [contradiction | intros [_ H']; congruence].
    + rewrite toString_empty_iff. tauto.
  - intros E. rewrite Hpage. intros [z [H Hz]]. congruence.
  - intros E. rewrite Hsize. intros [z [H Hz]]. congruence.
Qed.

Definition firstPageOfFolder : GetFlowsParams :=
  {| components_only := Some false; get_all := None; header_flows := Some true;
     folder_id := Some "f 1"; remove_example_flows := None;
     page := Some 0%Z; size := Some (-3)%Z |}.

Lemma addQueryParams_appends_truthy_fields_witness :
  ~ In "page" (List.map fst (queryParams firstPageOfFolder))
  /\ In "size" (List.map fst (queryParams firstPageOfFolder))
  /\ In "folder_id" (List.map fst (queryParams firstPageOfFolder))
  /\ addQueryParams "/api/v1/flows/" noParams = "/api/v1/flows/"
  /\ addQueryParams "/api/v1/flows/" firstPageOfFolder
     = "/api/v1/flows/?header_flows=true&folder_id=f+1&size=-3".
Proof.
  pose proof (addQueryParams_appends_truthy_fields "/api/v1/flows/" firstPageOfFolder)
    as (_ & _ & _ & Hfolder & _ & _ & Hsize & _ & _ & _ & Hpage & _).
  pose proof (addQueryParams_appends_truthy_fields "/api/v1/flows/" noParams)
    as (_ & _ & _ & _ & _ & _ & _ & _ & Hnone & _).
  split; [apply Hpage; reflexivity |].
  split; [apply Hsize; exists (-3)%Z; split; [reflexivity | discriminate] |].
  split; [apply Hfolder; exists "f 1"; split; [reflexivity | discriminate] |].
  split; [| reflexivity].
  apply Hnone. unfold allFalsy. simpl.
  repeat split; try discriminate; left; reflexivity.
Defined.

End AddQueryParamsProperties.

(** ** The refresh-flows mutation *)

Section RefreshFlowsProperties.

Import FlowsQuery.

Context {FlowType PageInfo APIObject ComponentFields : Type}.
Variable processFlows : FlowsData FlowType PageInfo -> APIObject.
Variable extractFieldsFromComponenents : gmap string APIObject -> ComponentFields.
Variable FLOWS : string.

Local Abbreviation State := (State FlowType PageInfo APIObject ComponentFields).
Local Abbreviation mutationFn :=
  (mutationFn processFlows extractFieldsFromComponenents FLOWS).

(** The URL of the first request, and of the one for the saved
    components. *)
Definition flowsUrl (FLOWS : string) (p : GetFlowsParams) : string :=
  addQueryParams (FLOWS ++ "/") p.

Definition componentsUrl (FLOWS : string) : string :=
  ((FLOWS ++ "/") ++ "?components_only=true&get_all=true")%string.

Lemma componentsUrl_eq :
  addQueryParams (FLOWS ++ "/") componentsParams = componentsUrl FLOWS.
Proof. reflexivity. Qed.

(** The hook asks for the URL that [addQueryParams] builds from the flows
    URL and the params. *)
Lemma getRefreshFlowsFn_request (s : State) (p : GetFlowsParams) :
  requests (fst (getRefreshFlowsFn FLOWS p s))
  = requests s ++ [addQueryParams (FLOWS ++ "/") p]
  /\ snd (getRefreshFlowsFn FLOWS p s)
     = backend s (length (requests s)) (addQueryParams (FLOWS ++ "/") p).
Proof. split; reflexivity. Qed.

Definition alertTitle : string := "Could not load flows from database".

(** What the flows store holds after a resolved first request. *)
Definition storedFlows (body : option (FlowsData FlowType PageInfo))
    (before : list FlowType) : list FlowType :=
  match body with
  | Some (FlowArray l) => l
  | Some (FlowPage pg) => items pg
  | None => before
  end.

(** What the types store holds after a resolved second request. *)
Definition storedTypes (body : option (FlowsData FlowType PageInfo))
    (before : gmap string APIObject) : gmap string APIObject :=
  match body with
  | Some c => <["saved_components" := processFlows c]> before
  | None => before
  end.

Lemma mutationFn_undefined (s : State) :
  mutationFn None s
  = (setErrorData alertTitle s,
     Rejected (TypeError "Cannot read properties of undefined")).
Proof. reflexivity. Qed.

(** The first request is rejected: one request, the alert, the error
    thrown again. *)
Lemma mutationFn_first_rejected (s : State) (p : GetFlowsParams) (e : Error) :
  backend s (length (requests s)) (flowsUrl FLOWS p) = Rejected e ->
  let r := mutationFn (Some p) s in
  snd r = Rejected e
  /\ errorData (fst r) = Some alertTitle
  /\ requests (fst r) = requests s ++ [flowsUrl FLOWS p]
  /\ flows (fst r) = flows s
  /\ typesData (fst r) = typesData s
  /\ componentFields (fst r) = componentFields s.
Proof.
  intros H. unfold FlowsQuery.mutationFn, try_catch, bind, getRefreshFlowsFn, api_get.
  unfold flowsUrl in H. rewrite H. simpl. repeat split; reflexivity.
Qed.

(** The second request is rejected: two requests, the alert, the error
    thrown again, no store written. *)
Lemma mutationFn_second_rejected (s : State) (p : GetFlowsParams)
    (body : option (FlowsData FlowType PageInfo)) (e : Error) :
  backend s (length (requests s)) (flowsUrl FLOWS p) = Resolved body ->
  backend s (S (length (requests s))) (componentsUrl FLOWS) = Rejected e ->
  let r := mutationFn (Some p) s in
  snd r = Rejected e
  /\ errorData (fst r) = Some alertTitle
  /\ requests (fst r) = requests s ++ [flowsUrl FLOWS p; componentsUrl FLOWS]
  /\ flows (fst r) = flows s
  /\ typesData (fst r) = typesData s
  /\ componentFields (fst r) = componentFields s.
Proof.
  intros H1 H2.
  unfold FlowsQuery.mutationFn, try_catch, bind, onFlows, bind, getRefreshFlowsFn, api_get.
  unfold flowsUrl in H1. rewrite H1. simpl.
  rewrite length_app, Nat.add_1_r, componentsUrl_eq, H2. simpl.
  rewrite <- app_assoc. repeat split; reflexivity.
Qed.

(** Both requests are resolved. *)
Lemma mutationFn_resolved (s : State) (p : GetFlowsParams)
    (body components : option (FlowsData FlowType PageInfo)) :
  backend s (length (requests s)) (flowsUrl FLOWS p) = Resolved body ->
  backend s (S (length (requests s))) (componentsUrl FLOWS) = Resolved components ->
  let r := mutationFn (Some p) s in
  snd r = Resolved []
  /\ errorData (fst r) = errorData s
  /\ requests (fst r) = requests s ++ [flowsUrl FLOWS p; componentsUrl FLOWS]
  /\ flows (fst r) = storedFlows body (flows s)
  /\ typesData (fst r) = storedTypes components (typesData s)
  /\ componentFields (fst r)
     = match components with
       | Some _ =>
           extractFieldsFromComponenents (storedTypes components (typesData s))
       | None => componentFields s
       end.
Proof.
  intros H1 H2.
  unfold FlowsQuery.mutationFn, try_catch, bind, onFlows, bind, getRefreshFlowsFn, api_get.
  unfold flowsUrl in H1. rewrite H1. simpl.
  rewrite length_app, Nat.add_1_r, componentsUrl_eq, H2.
  destruct components as [c|], body as [[l|pg]|]; simpl;
    rewrite <- app_assoc; repeat split; reflexivity.
Qed.

End RefreshFlowsProperties.

(** ** Posting a folder *)

Section PostFoldersProperties.

Import PostFolders.

Context {Folder FoldersStore : Type}.
Variable FOLDERS : string.
Variable getFoldersApi : bool -> M (State Folder FoldersStore) unit.

Definition payloadOf (newFolder : IPostAddFolders) : Payload :=
  {| payload_name := name (data newFolder);
     payload_description := description (data newFolder);
     flows_list := orNil (flows (data newFolder));
     components_list := orNil (components (data newFolder)) |}.

(** A rejected POST leaves [addFoldersFn] with the rejection: one
    request, no folder list fetched, the alert store as it was. *)
Lemma addFoldersFn_rejected (s : State Folder FoldersStore)
    (newFolder : IPostAddFolders) (e : Error) :
  backend s (length (requests s)) (FOLDERS ++ "/")%string (payloadOf newFolder)
    = Rejected e ->
  let r := addFoldersFn FOLDERS getFoldersApi newFolder s in
  snd r = Rejected e
  /\ errorData (fst r) = errorData s
  /\ successData (fst r) = successData s
  /\ foldersStore (fst r) = foldersStore s
  /\ requests (fst r) = requests s ++ [((FOLDERS ++ "/")%string, payloadOf newFolder)].
Proof.
  intros H. unfold addFoldersFn, bind, api_post.
  unfold payloadOf in H. rewrite H. simpl. repeat split; reflexivity.
Qed.

End PostFoldersProperties.

(** ** Deleting a folder *)

Section DeleteFolderProperties.

Import CollectionPage.

Lemma handleDeleteFolder_rejected (s : State) (folder_id : option string) (e : Error) :
  backend s (length (requests s)) folder_id = Rejected e ->
  let s' := handleDeleteFolder folder_id s in
  errorData s' = Some "Error deleting folder."
  /\ successData s' = successData s
  /\ location s' = location s
  /\ console s' = console s ++ [e]
  /\ requests s' = requests s ++ [folder_id].
Proof.
  intros H. unfold handleDeleteFolder, mutate. rewrite H. simpl.
  repeat split; reflexivity.
Qed.

Lemma handleDeleteFolder_resolved (s : State) (folder_id : option string) :
  backend s (length (requests s)) folder_id = Resolved tt ->
  let s' := handleDeleteFolder folder_id s in
  successData s' = Some "Folder deleted successfully."
  /\ errorData s' = errorData s
  /\ location s' = "/all"
  /\ console s' = console s
  /\ requests s' = requests s ++ [folder_id].
Proof.
  intros H. unfold handleDeleteFolder, mutate. rewrite H. simpl.
  repeat split; reflexivity.
Qed.

End DeleteFolderProperties.

(** ** Failed requests and the alert store *)

Section RequestFailures.

(** A backend that rejects every POST, a client with no alert shown, and
    a folder to add. *)
Definition failingPost : PostFolders.State unit unit :=
  {| PostFolders.backend := fun _ _ _ => Rejected (AxiosError "Network Error");
     PostFolders.requests := [];
     PostFolders.foldersStore := tt;
     PostFolders.errorData := None;
     PostFolders.successData := None |}.

Definition newFolder : PostFolders.IPostAddFolders :=
  {| PostFolders.data :=
       {| PostFolders.name := "New Folder"; PostFolders.description := "";
          PostFolders.flows := None; PostFolders.components := None |} |}.

(** C1, as stated, fails: the rejected POST of a folder leaves
    [addFoldersFn] rejected, with no error set in the alert store. *)
Lemma addFoldersFn_rejected_sets_no_alert :
  let r := PostFolders.addFoldersFn "/api/v1/folders" (fun _ => ret tt)
             newFolder failingPost in
  snd r = Rejected (AxiosError "Network Error")
  /\ PostFolders.errorData (fst r) = None
  /\ PostFolders.successData (fst r) = None
  /\ ~ (exists title, PostFolders.errorData (fst r) = Some title).
Proof.
  simpl. repeat split; try reflexivity. intros [title H]. discriminate H.
Qed.

(** C1, amended: a rejected request becomes an error title where the
    code installs a handler.  The refresh mutation sets its title and
    throws the error again, whichever of its two requests fails; the
    delete handler sets its title, logs the error and stays on the page;
    the function posting a folder sets nothing and ends rejected.  None
    of them sends the failed request again. *)
Theorem rejected_request_alerts :
  (forall (FlowType PageInfo APIObject ComponentFields : Type)
          (processFlows : FlowsQuery.FlowsData FlowType PageInfo -> APIObject)
          (extractFields : gmap string APIObject -> ComponentFields)
          (FLOWS : string)
          (s : FlowsQuery.State FlowType PageInfo APIObject ComponentFields)
          (p : FlowsQuery.GetFlowsParams) (e : Error),
      let r := FlowsQuery.mutationFn processFlows extractFields FLOWS (Some p) s in
      let n := length (FlowsQuery.requests s) in
      (FlowsQuery.backend s n (flowsUrl FLOWS p) = Rejected e ->
       snd r = Rejected e
       /\ FlowsQuery.errorData (fst r) = Some "Could not load flows from database"
       /\ FlowsQuery.requests (fst r) = FlowsQuery.requests s ++ [flowsUrl FLOWS p])
      /\ (forall body,
            FlowsQuery.backend s n (flowsUrl FLOWS p) = Resolved body ->
            FlowsQuery.backend s (S n) (componentsUrl FLOWS) = Rejected e ->
            snd r = Rejected e
            /\ FlowsQuery.errorData (fst r) = Some "Could not load flows from database"
            /\ FlowsQuery.requests (fst r)
               = FlowsQuery.requests s ++ [flowsUrl FLOWS p; componentsUrl FLOWS]))
  /\ (forall (s : CollectionPage.State) (folder_id : option string) (e : Error),
        CollectionPage.backend s (length (CollectionPage.requests s)) folder_id
          = Rejected e ->
        let s' := CollectionPage.handleDeleteFolder folder_id s in
        CollectionPage.errorData s' = Some "Error deleting folder."
        /\ CollectionPage.successData s' = CollectionPage.successData s
        /\ CollectionPage.location s' = CollectionPage.location s
        /\ CollectionPage.console s' = CollectionPage.console s ++ [e]
        /\ CollectionPage.requests s' = CollectionPage.requests s ++ [folder_id])
  /\ (forall (Folder FoldersStore : Type) (FOLDERS : string)
             (getFoldersApi : bool -> M (PostFolders.State Folder FoldersStore) unit)
             (s : PostFolders.State Folder FoldersStore)
             (f : PostFolders.IPostAddFolders) (e : Error),
        PostFolders.backend s (length (PostFolders.requests s))
          (FOLDERS ++ "/")%string (payloadOf f) = Rejected e ->
        let r := PostFolders.addFoldersFn FOLDERS getFoldersApi f s in
        snd r = Rejected e
        /\ PostFolders.errorData (fst r) = PostFolders.errorData s
        /\ PostFolders.successData (fst r) = PostFolders.successData s
        /\ PostFolders.requests (fst r)
           = PostFolders.requests s ++ [((FOLDERS ++ "/")%string, payloadOf f)]).
Proof.
  split; [| split].
  - intros FlowType PageInfo APIObject ComponentFields processFlows extractFields
      FLOWS s p e r n. split.
    + intros H.
      destruct (mutationFn_first_rejected processFlows extractFields FLOWS s p e H)
        as (H1 & H2 & H3 & _).
      repeat split; assumption.
    + intros body H H'.
      destruct (mutationFn_second_rejected processFlows extractFields FLOWS s p body e H H')
        as (H1 & H2 & H3 & _).
      repeat split; assumption.
  - intros s folder_id e H. exact (handleDeleteFolder_rejected s folder_id e H).
  - intros Folder FoldersStore FOLDERS getFoldersApi s f e H.
    destruct (addFoldersFn_rejected FOLDERS getFoldersApi s f e H)
      as (H1 & H2 & H3 & _ & H5).
    repeat split; assumption.
Qed.

End RequestFailures.

Section RequestFailuresWitness.

(** A backend that rejects every GET; one that answers the flows request
    and rejects the one for the saved components; one that rejects the
    DELETE. *)
Definition failingGet : FlowsQuery.State string unit (list string) nat :=
  {| FlowsQuery.backend := fun _ _ => Rejected (AxiosError "Network Error");
     FlowsQuery.requests := [];
     FlowsQuery.flows := ["kept"];
     FlowsQuery.typesData := ∅;
     FlowsQuery.componentFields := 0%nat;
     FlowsQuery.errorData := None |}.

Definition failingSecondGet : FlowsQuery.State string unit (list string) nat :=
  {| FlowsQuery.backend := fun n _ =>
       match n with
       | O => Resolved (Some (FlowsQuery.FlowArray ["fetched"]))
       | S _ => Rejected (AxiosError "Network Error")
       end;
     FlowsQuery.requests := [];
     FlowsQuery.flows := ["kept"];
     FlowsQuery.typesData := ∅;
     FlowsQuery.componentFields := 0%nat;
     FlowsQuery.errorData := None |}.

Definition failingDelete : CollectionPage.State :=
  {| CollectionPage.backend := fun _ _ => Rejected (AxiosError "Network Error");
     CollectionPage.requests := [];
     CollectionPage.successData := None;
     CollectionPage.errorData := None;
     CollectionPage.location := "/all/folder/f1";
     CollectionPage.console := [] |}.

Definition headerFlows : FlowsQuery.GetFlowsParams :=
  {| FlowsQuery.components_only := None; FlowsQuery.get_all := Some true;
     FlowsQuery.header_flows := Some true; FlowsQuery.folder_id := None;
     FlowsQuery.remove_example_flows := None;
     FlowsQuery.page := None; FlowsQuery.size := None |}.

(** Stand-ins for the imported helpers: the flows of an answer, and the
    number of entries of the types dictionary. *)
Definition entryCount {A} (m : gmap string A) : nat := stdpp.base.size m.

Definition names (d : FlowsQuery.FlowsData string unit) : list string :=
  match d with
  | FlowsQuery.FlowArray l => l
  | FlowsQuery.FlowPage pg => FlowsQuery.items pg
  end.

Lemma rejected_request_alerts_witness :
  (let r := FlowsQuery.mutationFn names entryCount "/api/v1/flows" (Some headerFlows)
              failingGet in
   snd r = Rejected (AxiosError "Network Error")
   /\ FlowsQuery.errorData (fst r) = Some "Could not load flows from database"
   /\ FlowsQuery.requests (fst r)
      = ["/api/v1/flows/?get_all=true&header_flows=true"])
  /\ (let r := FlowsQuery.mutationFn names entryCount "/api/v1/flows" (Some headerFlows)
                 failingSecondGet in
      snd r = Rejected (AxiosError "Network Error")
      /\ FlowsQuery.errorData (fst r) = Some "Could not load flows from database"
      /\ FlowsQuery.requests (fst r)
         = ["/api/v1/flows/?get_all=true&header_flows=true";
            "/api/v1/flows/?components_only=true&get_all=true"])
  /\ (let s' := CollectionPage.handleDeleteFolder (Some "f1") failingDelete in
      CollectionPage.errorData s' = Some "Error deleting folder."
      /\ CollectionPage.successData s' = None
      /\ CollectionPage.location s' = "/all/folder/f1"
      /\ CollectionPage.console s' = [AxiosError "Network Error"]
      /\ CollectionPage.requests s' = [Some "f1"])
  /\ (let r := PostFolders.addFoldersFn "/api/v1/folders" (fun _ => ret tt)
                 newFolder failingPost in
      snd r = Rejected (AxiosError "Network Error")
      /\ PostFolders.errorData (fst r) = None
      /\ PostFolders.successData (fst r) = None
      /\ PostFolders.requests (fst r)
         = [("/api/v1/folders/", payloadOf newFolder)]).
Proof.
  destruct rejected_request_alerts as (Hrefresh & Hdelete & Hpost).
  split; [| split; [| split]].
  - apply (Hrefresh string unit (list string) nat names entryCount "/api/v1/flows"
             failingGet headerFlows (AxiosError "Network Error")).
    reflexivity.
  - apply (Hrefresh string unit (list string) nat names entryCount "/api/v1/flows"
             failingSecondGet headerFlows (AxiosError "Network Error"))
      with (body := Some (FlowsQuery.FlowArray ["fetched"])); reflexivity.
  - apply (Hdelete failingDelete (Some "f1") (AxiosError "Network Error")).
    reflexivity.
  - apply (Hpost unit unit "/api/v1/folders" (fun _ => ret tt) failingPost newFolder
             (AxiosError "Network Error")).
    reflexivity.
Defined.

End RequestFailuresWitness.

(** ** What a successful refresh stores *)

Section RefreshStores.

Import FlowsQuery.

(** A backend that answers the flows request with one page of flows and
    the components request with a list. *)
Definition pagedBackend : State string Z (FlowsData string Z) nat :=
  {| backend := fun n _ =>
       match n with
       | O => Resolved (Some (FlowPage {| items := ["flow-1"]; pageInfo := 1%Z |}))
       | S _ => Resolved (Some (FlowArray ["component-1"]))
       end;
     requests := [];
     flows := [];
     typesData := ∅;
     componentFields := 0%nat;
     errorData := None |}.

Definition firstPage : GetFlowsParams :=
  {| components_only := None; get_all := None; header_flows := None;
     folder_id := None; remove_example_flows := Some true;
     page := Some 1%Z; size := Some 20%Z |}.

(** C8, as stated, fails: the body of the flows answer is a page, and the
    flows store receives its [items], not the body; this with a
    [processFlows] that changes nothing. *)
Lemma mutationFn_stores_items_of_page :
  let r := mutationFn (fun d => d) entryCount "/api/v1/flows" (Some firstPage) pagedBackend in
  backend pagedBackend 0 "/api/v1/flows/?remove_example_flows=true&page=1&size=20"
    = Resolved (Some (FlowPage {| items := ["flow-1"]; pageInfo := 1%Z |}))
  /\ snd r = Resolved []
  /\ flows (fst r) = ["flow-1"]
  /\ FlowArray (PageInfo := Z) (flows (fst r))
     <> FlowPage {| items := ["flow-1"]; pageInfo := 1%Z |}
  /\ componentFields (fst r) = 1%nat.
Proof.
  simpl. repeat split; try reflexivity. discriminate.
Qed.

(** C8, amended: after a refresh whose two requests are resolved, the
    flows store holds the flows of the first answer as they came (the
    body when it is a list, its [items] when it is a page, the former
    store when it is empty); the types store holds, under
    [saved_components], what [processFlows] makes of the second answer,
    and the fields [extractFieldsFromComponenents] derives from the
    result; the alert store is not written and the mutation resolves
    with the empty list. *)
Theorem mutationFn_stores
    {FlowType PageInfo APIObject ComponentFields : Type}
    (processFlows : FlowsData FlowType PageInfo -> APIObject)
    (extractFields : gmap string APIObject -> ComponentFields)
    (FLOWS : string)
    (s : State FlowType PageInfo APIObject ComponentFields)
    (p : GetFlowsParams)
    (body components : option (FlowsData FlowType PageInfo)) :
  backend s (length (requests s)) (flowsUrl FLOWS p) = Resolved body ->
  backend s (S (length (requests s))) (componentsUrl FLOWS) = Resolved components ->
  let r := mutationFn processFlows extractFields FLOWS (Some p) s in
  snd r = Resolved []
  /\ flows (fst r) = match body with
                     | Some (FlowArray l) => l
                     | Some (FlowPage pg) => items pg
                     | None => flows s
                     end
  /\ typesData (fst r)
     = match components with
       | Some c => <["saved_components" := processFlows c]> (typesData s)
       | None => typesData s
       end
  /\ componentFields (fst r)
     = match components with
       | Some c =>
           extractFields (<["saved_components" := processFlows c]> (typesData s))
       | None => componentFields s
       end
  /\ errorData (fst r) = errorData s
  /\ requests (fst r) = requests s ++ [flowsUrl FLOWS p; componentsUrl FLOWS].
Proof.
  intros H1 H2 r.
  destruct (mutationFn_resolved processFlows extractFields FLOWS s p body components H1 H2)
    as (R1 & R2 & R3 & R4 & R5 & R6).
  unfold storedFlows, storedTypes in R4, R5, R6.
  subst r. destruct components; repeat split; assumption.
Qed.

Lemma mutationFn_stores_witness :
  let r := mutationFn (fun d => d) entryCount "/api/v1/flows" (Some firstPage) pagedBackend in
  snd r = Resolved []
  /\ flows (fst r) = ["flow-1"]
  /\ typesData (fst r) = <["saved_components" := FlowArray ["component-1"]]> ∅
  /\ componentFields (fst r)
     = entryCount (<["saved_components" := FlowArray (PageInfo := Z) ["component-1"]]>
               (∅ : gmap string (FlowsData string Z)))
  /\ errorData (fst r) = None
  /\ requests (fst r)
     = ["/api/v1/flows/?remove_example_flows=true&page=1&size=20";
        "/api/v1/flows/?components_only=true&get_all=true"].
Proof.
  apply (mutationFn_stores (fun d => d) entryCount "/api/v1/flows" pagedBackend firstPage
           (Some (FlowPage {| items := ["flow-1"]; pageInfo := 1%Z |}))
           (Some (FlowArray ["component-1"]))); reflexivity.
Defined.

End RefreshStores.

(** ** The build status of a node *)

Section BuildStatusProperties.

Import NodeStatus.

Definition validRun : VertexBuildTypeAPI :=
  {| valid := true; duration := Some "1.2 s" |}.

(** C5, as stated, fails: the component has a branch of its own for
    [INACTIVE], and treats [TO_BUILD] unlike each of building, built and
    error; neither is one of the three. *)
Lemma buildStatus_more_than_three_states :
  tooltipContent (Some INACTIVE) (Some validRun) "" None = STATUS_INACTIVE
  /\ tooltipContent (Some BUILDING) (Some validRun) "" None = STATUS_BUILDING
  /\ tooltipContent (Some BUILT) (Some validRun) "" None
     = ValidationDetails "" None (Some "1.2 s")
  /\ tooltipContent (Some ERROR) (Some validRun) "" None
     = ValidationDetails "" None (Some "1.2 s")
  /\ conditionSuccess (Some TO_BUILD) (Some validRun) = false
  /\ conditionSuccess (Some BUILDING) (Some validRun) = true
  /\ conditionSuccess (Some BUILT) (Some validRun) = true
  /\ conditionSuccess (Some ERROR) (Some validRun) = true
  /\ ~ (forall s : BuildStatus, s = BUILDING \/ s = BUILT \/ s = ERROR).
Proof.
  repeat split; try reflexivity.
  intros H. destruct (H INACTIVE) as [E | [E | E]]; discriminate E.
Qed.

(** C5, amended: the build status of a node is absent or one of
    building, to-build, built, inactive and error, and the component
    tells them apart: built counts as a success, an absent status and
    to-build never do, the others do when the last validation was valid;
    building and inactive have tooltips of their own. *)
Theorem buildStatus_five_states (buildStatus : option BuildStatus)
    (validationStatus : option VertexBuildTypeAPI) (validationString : string)
    (lastRunTime : option string) :
  In buildStatus
     [None; Some BUILDING; Some TO_BUILD; Some BUILT; Some INACTIVE; Some ERROR]
  /\ conditionSuccess buildStatus validationStatus
     = match buildStatus with
       | Some BUILT => true
       | None | Some TO_BUILD => false
       | Some BUILDING | Some INACTIVE | Some ERROR =>
           match validationStatus with
           | Some v => valid v
           | None => false
           end
       end
  /\ tooltipContent buildStatus validationStatus validationString lastRunTime
     = match buildStatus with
       | Some BUILDING => STATUS_BUILDING
       | Some INACTIVE => STATUS_INACTIVE
       | None | Some TO_BUILD | Some BUILT | Some ERROR =>
           match validationStatus with
           | None => STATUS_BUILD
           | Some v => ValidationDetails validationString lastRunTime (duration v)
           end
       end.
Proof.
  destruct buildStatus as [[ | | | | ]|]; simpl;
    (split; [tauto | split; [| reflexivity]]);
    unfold conditionSuccess; simpl; reflexivity.
Qed.

End BuildStatusProperties.

(** ** The build status and the stored node *)

Section VersionEffectProperties.

Import NodeStatus.

Lemma setNode_lookup (nodeId : string) (update : NodeType -> NodeType)
    (nodes : list NodeType) (i : nat) :
  setNode nodeId update nodes !! i
  = (fun n => if String.eqb (id n) nodeId then update n else n) <$> nodes !! i.
Proof. unfold setNode. apply list_lookup_fmap. Qed.

(** The updater rewrites [lf_version] and nothing else. *)
Lemma withVersion_frame (version : string) (old : NodeType) :
  id (withVersion version old) = id old
  /\ node_rest (withVersion version old) = node_rest old
  /\ type (data (withVersion version old)) = type (data old)
  /\ data_rest (data (withVersion version old)) = data_rest (data old)
  /\ spread (node (data (withVersion version old))) !! "lf_version"
     = Some (JStr version)
  /\ (forall k, k <> "lf_version" ->
        spread (node (data (withVersion version old))) !! k
        = spread (node (data old)) !! k).
Proof.
  repeat split; simpl.
  - apply lookup_insert_eq.
  - intros k Hk. apply lookup_insert_ne. congruence.
Qed.

(** A node built with version 1.0.0, in a client of version 1.1.0. *)
Definition builtBefore : NodeType :=
  {| id := "ChatInput-a1";
     data := {| type := "ChatInput";
                node := Some (<["lf_version" := JStr "1.0.0"]>
                                (<["display_name" := JStr "Chat Input"]> ∅));
                data_rest := ∅ |};
     node_rest := ∅ |}.

Definition lfVersion (n : NodeType) : option Json :=
  spread (node (data n)) !! "lf_version".

(** C2, as stated, fails: when the status of a node becomes built and no
    build is running, the effect writes the client's version into the
    stored data of the node. *)
Lemma versionEffect_writes_lf_version :
  let nodes' := versionEffect "ChatInput-a1" "1.1.0" (Some BUILT) false [builtBefore] in
  versionEffectCalls "ChatInput-a1" "1.1.0" (Some BUILT) false
    = [SetNode "ChatInput-a1" (withVersion "1.1.0") false]
  /\ lfVersion (withVersion "1.1.0" builtBefore) = Some (JStr "1.1.0")
  /\ List.map lfVersion [builtBefore] = [Some (JStr "1.0.0")]
  /\ List.map lfVersion nodes' = [Some (JStr "1.1.0")]
  /\ List.map data nodes' <> List.map data [builtBefore].
Proof.
  split; [reflexivity |].
  split; [vm_compute; reflexivity |].
  assert (E0 : List.map lfVersion [builtBefore] = [Some (JStr "1.0.0")])
    by (vm_compute; reflexivity).
  assert (E1 : List.map lfVersion
                 (versionEffect "ChatInput-a1" "1.1.0" (Some BUILT) false [builtBefore])
               = [Some (JStr "1.1.0")])
    by (vm_compute; reflexivity).
  cbv zeta. split; [exact E0 | split; [exact E1 |]].
  intros H.
  assert (E : List.map lfVersion
                (versionEffect "ChatInput-a1" "1.1.0" (Some BUILT) false [builtBefore])
              = List.map lfVersion [builtBefore]).
  { unfold lfVersion.
    change (List.map (fun n => spread (node (data n)) !! "lf_version") ?l)
      with (List.map (fun d => spread (node d) !! "lf_version") (List.map data l)).
    rewrite H. reflexivity. }
  rewrite E0, E1 in E. discriminate E.
Qed.

Lemma versionEffect_idle (nodeId version : string)
    (buildStatus : option BuildStatus) (isBuilding : bool) (nodes : list NodeType) :
  buildStatus <> Some BUILT \/ isBuilding = true ->
  versionEffect nodeId version buildStatus isBuilding nodes = nodes.
Proof.
  unfold versionEffect, versionEffectCalls. intros [H | ->].
  - destruct buildStatus as [[ | | | | ]|]; try reflexivity. congruence.
  - rewrite andb_false_r. reflexivity.
Qed.

(** C2, amended: a change of the build status leaves the stored nodes as
    they are unless the new status is built while no build is running;
    then the node of that id gets the client's version as [lf_version],
    and nothing else changes: the other nodes, and of that node the id,
    the type, every other field of its data and every other field of
    its [node] object are kept. *)
Theorem versionEffect_frame (nodeId version : string)
    (buildStatus : option BuildStatus) (isBuilding : bool) (nodes : list NodeType) :
  let nodes' := versionEffect nodeId version buildStatus isBuilding nodes in
  length nodes' = length nodes
  /\ (buildStatus <> Some BUILT \/ isBuilding = true -> nodes' = nodes)
  /\ (forall (i : nat) (n : NodeType),
        nodes !! i = Some n ->
        exists n', nodes' !! i = Some n'
          /\ id n' = id n
          /\ node_rest n' = node_rest n
          /\ type (data n') = type (data n)
          /\ data_rest (data n') = data_rest (data n)
          /\ (forall k, k <> "lf_version" ->
                spread (node (data n')) !! k = spread (node (data n)) !! k)
          /\ (id n <> nodeId -> n' = n)
          /\ (buildStatus = Some BUILT -> isBuilding = false -> id n = nodeId ->
                node (data n')
                = Some (<["lf_version" := JStr version]> (spread (node (data n)))))).
Proof.
  intros nodes'. subst nodes'. split; [| split].
  - unfold versionEffect, versionEffectCalls, setNode.
    destruct (statusIs buildStatus BUILT && negb isBuilding);
      [apply length_map | reflexivity].
  - apply versionEffect_idle.
  - intros i n Hn. unfold versionEffect, versionEffectCalls.
    destruct (statusIs buildStatus BUILT && negb isBuilding) eqn:Hfire; simpl.
    + rewrite setNode_lookup, Hn. simpl.
      destruct (String.eqb (id n) nodeId) eqn:Hid.
      * exists (withVersion version n).
        destruct (withVersion_frame version n) as (F1 & F2 & F3 & F4 & _ & F6).
        repeat split; try assumption.
        apply String.eqb_eq in Hid. intros Hne. contradiction.
      * exists n. repeat split; try reflexivity.
        apply String.eqb_neq in Hid. intros _ _ E. contradiction.
    + exists n. repeat split; try assumption; try reflexivity.
      intros -> -> _. simpl in Hfire. discriminate Hfire.
Qed.

Lemma versionEffect_frame_witness :
  let nodes' := versionEffect "ChatInput-a1" "1.1.0" (Some BUILT) false [builtBefore] in
  exists n', nodes' !! 0%nat = Some n'
    /\ id n' = "ChatInput-a1"
    /\ type (data n') = "ChatInput"
    /\ spread (node (data n')) !! "display_name" = Some (JStr "Chat Input")
    /\ node (data n')
       = Some (<["lf_version" := JStr "1.1.0"]> (spread (node (data builtBefore)))).
Proof.
  destruct (versionEffect_frame "ChatInput-a1" "1.1.0" (Some BUILT) false [builtBefore])
    as (_ & _ & H).
  destruct (H 0%nat builtBefore eq_refl)
    as (n' & H0 & H1 & _ & H3 & _ & H5 & _ & H7).
  exists n'. split; [exact H0 |]. split; [exact H1 |]. split; [exact H3 |].
  split.
  - rewrite (H5 "display_name"); [| discriminate].
    vm_compute. reflexivity.
  - apply H7; reflexivity.
Defined.

End VersionEffectProperties.

(** ** The slider *)

Section SliderProperties.

Import Slider.

Variable parseFloat : string -> number.
Variable toFixed : number -> nat -> string.
Variable getMinOrMaxValue : number -> Q -> Q -> number.

Local Abbreviation handleInputBlur :=
  (Slider.handleInputBlur parseFloat toFixed getMinOrMaxValue).
Local Abbreviation displayed := (Slider.displayed toFixed getMinOrMaxValue).

(** A number inside the closed interval from [lo] to [hi]. *)
Definition inRange (lo hi : Q) (n : number) : Prop :=
  match n with
  | Num r => Qle lo r /\ Qle r hi
  | _ => False
  end.

(** From the words of the claim, a number clamped to the closed interval
    from [lo] to [hi]: [lo] for a number below [lo], [hi] for a number
    above [hi], and the number itself for any other. *)
Definition clamped (lo hi : Q) (n : number) : number :=
  if ltb n (Num lo) then Num lo
  else if ltb (Num hi) n then Num hi
  else n.

Lemma Qle_bool_false (x y : Q) : Qle_bool x y = false -> Qlt y x.
Proof.
  intros H. apply Qnot_le_lt. intros H'. apply Qle_bool_iff in H'. congruence.
Qed.

(** On an interval that is not empty, [Math.min(Math.max(n, lo), hi)] is
    the clamp. *)
Lemma Math_min_max_clamped (lo hi : Q) (n : number) :
  Qle lo hi -> Math_min (Math_max n (Num lo)) (Num hi) = clamped lo hi n.
Proof.
  intros Hle. apply Qle_bool_iff in Hle. unfold clamped.
  destruct n as [| |q|]; simpl; try reflexivity.
  - rewrite Hle. reflexivity.
  - destruct (Qle_bool lo q) eqn:E1; simpl.
    + destruct (Qle_bool q hi); reflexivity.
    + rewrite Hle. reflexivity.
Qed.

Lemma clamped_inRange (lo hi : Q) (n : number) :
  Qle lo hi -> isNaN n = false -> inRange lo hi (clamped lo hi n).
Proof.
  intros Hle Hn. unfold clamped.
  destruct n as [| |q|]; try discriminate Hn; simpl.
  - split; [apply Qle_refl | exact Hle].
  - destruct (Qle_bool lo q) eqn:E1; simpl.
    + destruct (Qle_bool q hi) eqn:E2; simpl.
      * apply Qle_bool_iff in E1, E2. split; assumption.
      * split; [exact Hle | apply Qle_refl].
    + split; [apply Qle_refl | exact Hle].
  - split; [exact Hle | apply Qle_refl].
Qed.

Lemma clamped_keeps (lo hi : Q) (n : number) :
  inRange lo hi n -> clamped lo hi n = n.
Proof.
  unfold clamped. destruct n as [| |q|]; simpl; [intros [] | intros [] | | intros []].
  intros [H1 H2]. apply Qle_bool_iff in H1, H2. rewrite H1, H2. reflexivity.
Qed.

Lemma handleInputBlur_changes (p : Props) (e : Editing) :
  fst (handleInputBlur p e)
  = if isNaN (parseFloat (inputValue e)) then []
    else [{| newValue :=
               ValNumber (Math_min (Math_max (parseFloat (inputValue e)) (Num (min p)))
                            (Num (max p)));
             skipSnapshot := false |}].
Proof.
  unfold Slider.handleInputBlur. simpl.
  destruct (isNaN (parseFloat (inputValue e))); reflexivity.
Qed.


End SliderProperties.

Section SliderExamples.

Import Slider.

(** In the examples the text is read by [parseDecimal]; the other two
    imports do not bear on what is committed, and the plainest functions
    stand in for them. *)
Definition noText (n : number) (digits : nat) : string := EmptyString.
Definition asGiven (value : number) (min max : Q) : number := value.

(** The props of a slider with no range given and the value 1, and of
    one whose range is given upside down. *)
Definition defaultRange : Props :=
  {| value := ValNumber (Num 1); disabled := false; rangeSpec := None |}.

Definition reversedRange : Props :=
  {| value := ValNumber (Num 1); disabled := false;
     rangeSpec := Some {| range_min := Some (5 # 1); range_max := Some (1 # 1);
                          range_step := None |} |}.



End SliderExamples.

(** ** The voice assistant *)

Section VoiceAssistantProperties.

Import Js VoiceAssistant.

Context {Chunk : Type}.
Variable decode : value -> option Chunk.
Variable postThrows : Chunk -> bool.
Variable flowStoreEdges : list (VoiceAssistant.Call Chunk) -> list EdgeType.

Local Abbreviation State := (VoiceAssistant.State Chunk).
Local Abbreviation Call := (VoiceAssistant.Call Chunk).
Local Abbreviation handleWebSocketMessage :=
  (VoiceAssistant.handleWebSocketMessage decode postThrows flowStoreEdges).
Local Abbreviation handleWorkletMessage :=
  (VoiceAssistant.handleWorkletMessage postThrows).
Local Abbreviation playNextAudioChunk :=
  (VoiceAssistant.playNextAudioChunk postThrows).

(** Case analysis on every test a handler makes. *)
Ltac handler_cases :=
  repeat match goal with
    | |- context [match ?x with _ => _ end] => destruct x eqn:?
    end.

Ltac extends :=
  first [ exists []; rewrite app_nil_r; reflexivity
        | eexists; repeat rewrite <- app_assoc; reflexivity ].

(** A handler leaves [s] in [s']: the calls made before are still there,
    the refs and the recording flag are untouched, the transcript has
    only grown and an open key dialog is still open. *)
Definition keeps (s s' : State) : Prop :=
  (exists new, calls s' = calls s ++ new)
  /\ (exists more, message s' = (message s ++ more)%string)
  /\ (showApiKeyModal s = true -> showApiKeyModal s' = true)
  /\ isRecording s' = isRecording s
  /\ audioContext s' = audioContext s
  /\ ws s' = ws s
  /\ processor s' = processor s
  /\ microphone s' = microphone s
  /\ analyser s' = analyser s.

Lemma append_empty_r (a : string) : (a ++ "")%string = a.
Proof.
  induction a as [|c a IH]; [reflexivity |].
  change (String c (a ++ "")%string = String c a). rewrite IH. reflexivity.
Qed.

Ltac keeps_leaf :=
  unfold keeps; simpl;
  repeat match goal with |- _ /\ _ => split end;
  try reflexivity; try (intros H; exact H); try extends;
  try (exists ""%string; symmetry; apply append_empty_r);
  try (eexists; reflexivity).

Lemma playNextAudioChunk_keeps (s : State) : keeps s (playNextAudioChunk s).
Proof.
  unfold VoiceAssistant.playNextAudioChunk.
  destruct s as [m st modal rec ctx sock proc mic ana q playing cs]; simpl.
  handler_cases; keeps_leaf.
Qed.

Lemma handleWorkletMessage_keeps (m : WorkletMessage) (s : State) :
  keeps s (handleWorkletMessage m s).
Proof.
  unfold VoiceAssistant.handleWorkletMessage.
  handler_cases; try apply playNextAudioChunk_keeps;
    destruct s as [m' st modal rec ctx sock proc mic ana q playing cs];
    keeps_leaf.
Qed.

(** X5: a message of the socket keeps what [keeps] lists: the calls
    made before, the refs, the recording flag, the transcript so far and an
    open key dialog. *)
Lemma handleWebSocketMessage_keeps (data : value) (s : State) :
  keeps s (fst (handleWebSocketMessage data s)).
Proof.
  unfold VoiceAssistant.handleWebSocketMessage, onBuildProgress,
    VoiceAssistant.playNextAudioChunk.
  destruct s as [m st modal rec ctx sock proc mic ana q playing cs]; simpl.
  handler_cases; keeps_leaf.
Qed.

(** A value on which a property read throws. *)
Definition nullish (v : value) : Prop := v = Undefined \/ v = Null.

Lemma prop_None (v : value) (k : string) : prop v k = None <-> nullish v.
Proof.
  unfold nullish, prop. destruct v; try destruct (lookup fields k);
    split; try discriminate; try tauto; intros [H | H]; discriminate H.
Qed.

Lemma optProp_prop (v x : value) (k : string) : prop v k = Some x -> optProp v k = x.
Proof. unfold optProp. intros ->. reflexivity. Qed.

Lemma optProp_None (v : value) (k : string) : prop v k = None -> optProp v k = Undefined.
Proof. unfold optProp. intros ->. reflexivity. Qed.

Lemma isStr_true (v : value) (x : string) : isStr v x = true <-> v = Str x.
Proof.
  destruct v; simpl; split; try discriminate.
  - intros H. apply String.eqb_eq in H. congruence.
  - intros H. inversion H. apply String.eqb_refl.
Qed.

Ltac clash :=
  repeat match goal with
    | H : _ && _ = true |- _ => apply andb_true_iff in H; destruct H
    end;
  repeat match goal with
    | H : isStr _ _ = true |- _ => apply isStr_true in H
    end;
  congruence.

(** What the reads of a message gave, put back into the hypotheses. *)
Ltac norm_props :=
  repeat match goal with
    | H : prop _ _ = Some _ |- _ => apply optProp_prop in H
    | H : prop _ _ = None |- _ => apply optProp_None in H
    end;
  subst;
  repeat match goal with
    | H : optProp _ _ = Undefined |- _ => rewrite H in *; clear H
    end.

(** From [cs ++ new = cs ++ ...]: what [new] is. *)
Ltac new_calls H :=
  repeat rewrite <- app_assoc in H;
  first [ apply app_inv_head in H
        | rewrite <- (app_nil_r (calls _)) in H at 1; apply app_inv_head in H
        | match type of H with
          | ?cs = ?cs ++ _ =>
              rewrite <- (app_nil_r cs) in H at 1; apply app_inv_head in H
          end ];
  simpl in H; subst.

(** The build status that goes with an event of the build. *)
Definition statusOfEvent (event : value) (st : NodeStatus.BuildStatus) : Prop :=
  match st with
  | NodeStatus.BUILDING => isStr event "start_vertex" = true
  | NodeStatus.BUILT => isStr event "end_vertex" = true
  | NodeStatus.ERROR => isStr event "error" = true
  | NodeStatus.TO_BUILD | NodeStatus.INACTIVE => False
  end.

(** X1: the calls that touch the build statuses.  Every call of
    [updateBuildStatus] that a message makes the handler issue carries
    building, built or error, as the event of the message says, and names
    the one vertex of the message.  The one other call on the statuses,
    [revertBuiltStatusFromBuilding], names no vertex and leaves the choice
    to the store; the handler makes it on the [end] event of a build and on
    no other message. *)
Theorem handleWebSocketMessage_build_status (data : value) (s : State)
    (new : list Call) :
  calls (fst (handleWebSocketMessage data s)) = calls s ++ new ->
  let buildData := optProp data "data" in
  let progress := isStr (optProp data "type") "flow.build.progress" in
  (forall ids st, In (UpdateBuildStatus ids st) new ->
     progress = true
     /\ ids = [optProp buildData "vertex_id"]
     /\ statusOfEvent (optProp buildData "event") st)
  /\ (In RevertBuiltStatusFromBuilding new
      <-> progress = true /\ isStr (optProp buildData "event") "end" = true).
Proof.
  unfold VoiceAssistant.handleWebSocketMessage, onBuildProgress,
    VoiceAssistant.playNextAudioChunk.
  destruct s as [m st' modal rec ctx sock proc mic ana q playing cs]; simpl.
  handler_cases; simpl; intros Hnew; new_calls Hnew;
    norm_props;
    (split; [intros ids st Hin | split; [intros Hin | intros [Hp He]]]);
    simpl in *;
    repeat match goal with
      | H : _ \/ _ |- _ => destruct H
      | H : False |- _ => destruct H
      | H : _ = UpdateBuildStatus _ _ |- _ => inversion H; subst; clear H
      | H : _ = RevertBuiltStatusFromBuilding |- _ => discriminate H
      end;
    subst; simpl in *;
    try (repeat split; assumption);
    try tauto;
    try discriminate;
    try congruence;
    clash.
Qed.


(** What [markRunning] does to one edge. *)
Definition marked (vertex_id : value) (e e' : EdgeType) : Prop :=
  edge_id e' = edge_id e
  /\ targetHandle_id e' = targetHandle_id e
  /\ (e' = e
      \/ (vertex_id = Str (targetHandle_id e)
          /\ animated e' = Some true /\ className e' = Some "running")).

Lemma markRunning_marked (vertex_id : value) (e : EdgeType) :
  marked vertex_id e (markRunning vertex_id e)
  /\ (vertex_id = Str (targetHandle_id e) ->
      animated (markRunning vertex_id e) = Some true).
Proof.
  unfold marked, markRunning.
  destruct (isStr vertex_id (targetHandle_id e)) eqn:H; simpl.
  - apply isStr_true in H. repeat split; try reflexivity. right. tauto.
  - repeat split; try reflexivity; [left; reflexivity |].
    intros E. apply isStr_true in E. congruence.
Qed.

(** X3: the calls that touch the edges.  The handler hands a list to
    [setEdges] on the [start_vertex] event of a build and on no other
    message, and the list is the one that the store held when the handler
    began, with the same edges in the same order, each one left as it was
    or set running and every edge into the vertex of the message set
    running.  [updateEdgesRunningByNodes] is called with [false] only, for
    the one vertex of an [end_vertex] or [error] event, and
    [clearEdgesRunningByNodes] on the [end] event only; what these two do
    to the edges is the store's own. *)
Theorem handleWebSocketMessage_edges (data : value) (s : State) (new : list Call) :
  calls (fst (handleWebSocketMessage data s)) = calls s ++ new ->
  let buildData := optProp data "data" in
  let vertex_id := optProp buildData "vertex_id" in
  let event := optProp buildData "event" in
  let progress := isStr (optProp data "type") "flow.build.progress" in
  let newEdges := List.map (markRunning vertex_id) (flowStoreEdges (calls s)) in
  (forall l, In (SetEdges l) new
             <-> progress = true /\ isStr event "start_vertex" = true /\ l = newEdges)
  /\ Forall2 (marked vertex_id) (flowStoreEdges (calls s)) newEdges
  /\ (forall e', In e' newEdges -> vertex_id = Str (targetHandle_id e') ->
                 animated e' = Some true /\ className e' = Some "running")
  /\ (forall ids running, In (UpdateEdgesRunningByNodes ids running) new ->
        progress = true /\ ids = [vertex_id] /\ running = false
        /\ (isStr event "end_vertex" = true \/ isStr event "error" = true))
  /\ (In ClearEdgesRunningByNodes new -> progress = true /\ isStr event "end" = true).
Proof.
  intros Hnew. cbv zeta.
  split; [| split; [| split; [| split]]].
  - revert Hnew.
    unfold VoiceAssistant.handleWebSocketMessage, onBuildProgress,
      VoiceAssistant.playNextAudioChunk.
    destruct s as [m st' modal rec ctx sock proc mic ana q playing cs]; simpl.
    handler_cases; simpl; intros Hnew; new_calls Hnew;
      norm_props;
      intros lst; (split; [intros Hin | intros (Hp & He & Hl)]);
      simpl in *;
      repeat match goal with
        | H : _ \/ _ |- _ => destruct H
        | H : False |- _ => destruct H
        | H : _ = SetEdges _ |- _ => inversion H; subst; clear H
        end;
      subst; simpl in *;
      try (repeat split; first [assumption | reflexivity]);
      try tauto;
      try discriminate;
      try congruence;
      clash.
  - generalize (flowStoreEdges (calls s)) as l.
    induction l; simpl; constructor; [| assumption].
    apply markRunning_marked.
  - intros e' Hin Hv. apply in_map_iff in Hin. destruct Hin as (e & <- & _).
    unfold markRunning in *.
    destruct (isStr (optProp (optProp data "data") "vertex_id") (targetHandle_id e))
      eqn:E; simpl in *; [split; reflexivity |].
    rewrite Hv in E. simpl in E. rewrite String.eqb_refl in E. discriminate E.
  - revert Hnew.
    unfold VoiceAssistant.handleWebSocketMessage, onBuildProgress,
      VoiceAssistant.playNextAudioChunk.
    destruct s as [m st' modal rec ctx sock proc mic ana q playing cs]; simpl.
    handler_cases; simpl; intros Hnew; new_calls Hnew;
      repeat match goal with
        | H : prop _ _ = Some _ |- _ => apply optProp_prop in H
        end;
      intros ids running Hin; simpl in *;
      repeat match goal with
        | H : _ \/ _ |- _ => destruct H
        | H : False |- _ => destruct H
        | H : _ = UpdateEdgesRunningByNodes _ _ |- _ => inversion H; subst; clear H
        end;
      subst; simpl in *; repeat split; tauto.
  - revert Hnew.
    unfold VoiceAssistant.handleWebSocketMessage, onBuildProgress,
      VoiceAssistant.playNextAudioChunk.
    destruct s as [m st' modal rec ctx sock proc mic ana q playing cs]; simpl.
    handler_cases; simpl; intros Hnew; new_calls Hnew;
      repeat match goal with
        | H : prop _ _ = Some _ |- _ => apply optProp_prop in H
        end;
      intros Hin; simpl in *;
      repeat match goal with
        | H : _ \/ _ |- _ => destruct H
        | H : False |- _ => destruct H
        | H : _ = ClearEdgesRunningByNodes |- _ => discriminate H
        end;
      subst; simpl in *; split; assumption.
Qed.

Definition isFlagCall (c : Call) : bool :=
  match c with
  | SetIsBuilding _ | SetLockChat _ => true
  | _ => false
  end.

(** X4: The building flag and the chat lock move together: a message makes
    the handler set both to true (the [start] event of a build), both to
    false (the [end] event), in that order, or neither. *)
Theorem handleWebSocketMessage_flags (data : value) (s : State) (new : list Call) :
  calls (fst (handleWebSocketMessage data s)) = calls s ++ new ->
  let event := optProp (optProp data "data") "event" in
  List.filter isFlagCall new = []
  \/ (isStr (optProp data "type") "flow.build.progress" = true
      /\ ((isStr event "start" = true
           /\ List.filter isFlagCall new = [SetIsBuilding true; SetLockChat true])
          \/ (isStr event "end" = true
              /\ List.filter isFlagCall new = [SetIsBuilding false; SetLockChat false]))).
Proof.
  unfold VoiceAssistant.handleWebSocketMessage, onBuildProgress,
    VoiceAssistant.playNextAudioChunk.
  destruct s as [m st' modal rec ctx sock proc mic ana q playing cs]; simpl.
  handler_cases; simpl; intros Hnew; new_calls Hnew; simpl;
    try (left; reflexivity);
    right;
    repeat match goal with
      | H : prop _ _ = Some _ |- _ => apply optProp_prop in H
      end;
    subst; split; try assumption; tauto.
Qed.

(** *** The audio queue *)

(** What reaches the component while it plays: a message of the socket or
    a message of the worklet. *)
Inductive Event :=
| Socket (data : value)
| Worklet (m : WorkletMessage).

Definition step (s : State) (e : Event) : State :=
  match e with
  | Socket data => fst (handleWebSocketMessage data s)
  | Worklet m => handleWorkletMessage m s
  end.

Definition run (events : list Event) (s : State) : State := fold_left step events s.

(** The chunks handed to the worklet, in the order of the calls. *)
Fixpoint played (cs : list Call) : list Chunk :=
  match cs with
  | [] => []
  | PostPlayback c :: rest => c :: played rest
  | _ :: rest => played rest
  end.

(** The chunks that the audio messages among the events carry, in the
    order of arrival, [ctx] telling whether there is an audio context. *)
Definition arrived (ctx : bool) (e : Event) : list Chunk :=
  match e with
  | Socket data =>
      if isStr (optProp data "type") "response.audio.delta"
         && truthy (optProp data "delta") && ctx
      then match decode (optProp data "delta") with
           | Some c => [c]
           | None => []
           end
      else []
  | Worklet _ => []
  end.

Lemma played_app (a b : list Call) : played (a ++ b) = played a ++ played b.
Proof.
  induction a as [|c a IH]; simpl; [reflexivity |].
  destruct c; simpl; rewrite IH; reflexivity.
Qed.

Lemma step_keeps (s : State) (e : Event) : keeps s (step s e).
Proof.
  destruct e; simpl;
    [apply handleWebSocketMessage_keeps | apply handleWorkletMessage_keeps].
Qed.

Lemma step_played (s : State) (e : Event) :
  (forall c, postThrows c = false) ->
  processor s = true ->
  played (calls (step s e)) ++ audioQueue (step s e)
  = played (calls s) ++ audioQueue s ++ arrived (audioContext s) e.
Proof.
  intros Hpost.
  destruct s as [m st' modal rec ctx sock proc mic ana q playing cs]; simpl.
  intros ->.
  destruct e as [data | w]; simpl.
  - unfold VoiceAssistant.handleWebSocketMessage, onBuildProgress,
      VoiceAssistant.playNextAudioChunk; simpl.
    destruct (prop data "type") as [type|] eqn:Htype.
    + rewrite (optProp_prop _ _ _ Htype).
      handler_cases; simpl in *;
        repeat rewrite played_app; simpl;
        repeat rewrite <- app_assoc; simpl; repeat rewrite app_nil_r;
        try reflexivity; try congruence; try clash;
        try (match goal with H : postThrows ?c = true |- _ =>
               rewrite Hpost in H; discriminate H end);
        try (match goal with H : _ ++ [_] = [] |- _ =>
               apply app_eq_nil in H; destruct H; discriminate end);
        try (match goal with H : ?q ++ [?c] = _ :: _ |- _ =>
               rewrite <- H; reflexivity end).
    + unfold optProp. rewrite Htype. simpl. rewrite app_nil_r. reflexivity.
  - unfold VoiceAssistant.handleWorkletMessage, VoiceAssistant.playNextAudioChunk; simpl.
    handler_cases; simpl in *;
      repeat rewrite played_app; simpl;
      repeat rewrite <- app_assoc; simpl; repeat rewrite app_nil_r;
      try reflexivity;
      match goal with H : postThrows ?c = true |- _ =>
        rewrite Hpost in H; discriminate H end.
Qed.

(** X7: With a worklet attached and a [postMessage] that does not throw, no
    chunk is lost, played twice or played out of turn: the chunks played
    so far, followed by the ones in the queue, are the chunks that have
    arrived, in their order of arrival. *)
Theorem run_played_in_order (events : list Event) (s : State) :
  (forall c, postThrows c = false) ->
  processor s = true ->
  played (calls (run events s)) ++ audioQueue (run events s)
  = played (calls s) ++ audioQueue s ++ flat_map (arrived (audioContext s)) events.
Proof.
  intros Hpost. revert s.
  induction events as [|e events IH]; intros s Hproc; simpl.
  - rewrite app_nil_r. reflexivity.
  - destruct (step_keeps s e) as (_ & _ & _ & _ & Hctx & _ & Hp & _).
    rewrite IH by (rewrite Hp; exact Hproc).
    rewrite app_assoc, (step_played s e Hpost Hproc), Hctx.
    repeat rewrite <- app_assoc. reflexivity.
Qed.

(** *** One chunk at a time *)

(** The number of chunks handed to the worklet so far. *)
Definition posts (s : State) : nat := length (played (calls s)).

Definition isDone (e : Event) : bool :=
  match e with
  | Worklet m => String.eqb (worklet_type m) "done"
  | Socket _ => false
  end.

(** The worklet ([streamProcessor], not in the sources) holds a chunk from
    the [postMessage] that hands it over until it reports [done].  An
    event takes the state and the number [n] of chunks that the worklet
    holds to the next state and number; a [done] from a worklet that
    holds no chunk is no event of such a worklet ([None]). *)
Definition track (sn : State * nat) (e : Event) : option (State * nat) :=
  let s' := step (fst sn) e in
  let handed := (posts s' - posts (fst sn))%nat in
  if isDone e then
    match snd sn with
    | O => None
    | S n => Some (s', (n + handed)%nat)
    end
  else Some (s', (snd sn + handed)%nat).

Fixpoint trackRun (events : list Event) (sn : State * nat) : option (State * nat) :=
  match events with
  | [] => Some sn
  | e :: rest =>
      match track sn e with
      | Some sn' => trackRun rest sn'
      | None => None
      end
  end.

(** The player and the worklet agree: the worklet holds at most one chunk,
    the playing flag is set exactly while it holds one, and no chunk
    waits in the queue while it holds none. *)
Definition inStep (s : State) (n : nat) : Prop :=
  (n <= 1)%nat
  /\ isPlaying s = (n =? 1)%nat
  /\ (n = 0%nat -> audioQueue s = []).

Ltac count_leaf :=
  first [ lia | reflexivity | discriminate | assumption | congruence
        | match goal with
          | H1 : (?x =? "done")%string = true, H2 : (?x =? "input")%string = true |- _ =>
              apply String.eqb_eq in H1; apply String.eqb_eq in H2; congruence
          end
        | intros; discriminate | intros; lia
        | symmetry; apply Nat.eqb_eq; lia
        | symmetry; apply Nat.eqb_neq; lia
        | solve [intros; auto]
        | intros; exfalso; lia ].

Lemma track_inStep (s : State) (n : nat) (e : Event) (s' : State) (n' : nat) :
  (forall c, postThrows c = false) ->
  processor s = true ->
  inStep s n ->
  track (s, n) e = Some (s', n') ->
  s' = step s e /\ inStep s' n'.
Proof.
  intros Hpost.
  destruct s as [m st' modal rec ctx sock proc mic ana q playing cs].
  unfold inStep, track, posts; simpl. intros -> (Hle & Hflag & Hq).
  destruct e as [data | w]; simpl.
  - unfold VoiceAssistant.handleWebSocketMessage, onBuildProgress,
      VoiceAssistant.playNextAudioChunk; simpl.
    handler_cases; simpl in *;
      repeat rewrite played_app; simpl;
      repeat rewrite length_app; simpl;
      intros Heq; inversion Heq; subst; clear Heq; simpl;
      try (match goal with H : postThrows ?c = true |- _ =>
             rewrite Hpost in H; discriminate H end);
      (split; [reflexivity |]);
      destruct n as [|[|n]]; simpl in *; try lia; try discriminate;
      try (rewrite Hq in * by reflexivity; simpl in *);
      repeat match goal with
        | H : _ :: _ = _ :: _ |- _ => inversion H; subst; clear H
        | H : [] = _ :: _ |- _ => discriminate H
        end;
      repeat split;
      count_leaf.
  - unfold VoiceAssistant.handleWorkletMessage, VoiceAssistant.playNextAudioChunk; simpl.
    handler_cases; simpl in *;
      repeat rewrite played_app; simpl;
      repeat rewrite length_app; simpl;
      intros Heq; inversion Heq; subst; clear Heq; simpl;
      try (match goal with H : postThrows ?c = true |- _ =>
             rewrite Hpost in H; discriminate H end);
      (split; [reflexivity |]);
      repeat match goal with
        | n : nat |- _ => destruct n as [|[|?]]; simpl in *; try lia; try discriminate
        end;
      repeat split;
      count_leaf.
Qed.

(** X8: with a worklet attached that reports [done] only for a chunk it
    holds, and a [postMessage] that does not throw: whatever arrives, in
    whatever order, the worklet is never handed a chunk while it holds
    one, the playing flag is set exactly while it holds one, and a chunk
    waits in the queue only while the worklet holds one. *)
Theorem run_one_chunk_at_a_time (events : list Event) (s s' : State) (n n' : nat) :
  (forall c, postThrows c = false) ->
  processor s = true ->
  inStep s n ->
  trackRun events (s, n) = Some (s', n') ->
  s' = run events s /\ inStep s' n'.
Proof.
  intros Hpost. revert s n.
  induction events as [|e events IH]; intros s n Hproc I; simpl.
  - intros H. inversion H; subst. split; [reflexivity | exact I].
  - destruct (track (s, n) e) as [[s1 n1]|] eqn:Ht; [| discriminate].
    destruct (track_inStep s n e s1 n1 Hpost Hproc I Ht) as [-> I1].
    apply IH; [| exact I1].
    destruct (step_keeps s e) as (_ & _ & _ & _ & _ & _ & Hp & _).
    rewrite Hp. exact Hproc.
Qed.

(** The text that a message adds to the transcript. *)
Definition textOf (e : Event) : string :=
  match e with
  | Socket data =>
      let part := optProp data "part" in
      if isStr (optProp data "type") "response.content_part.added"
         && isStr (optProp part "type") "text" && truthy (optProp part "text")
      then toString (optProp part "text")
      else EmptyString
  | Worklet _ => EmptyString
  end.

Lemma append_assoc (a b c : string) : ((a ++ b) ++ c)%string = (a ++ (b ++ c))%string.
Proof.
  induction a as [|x a IH]; [reflexivity |].
  change (String x ((a ++ b) ++ c)%string = String x (a ++ (b ++ c))%string).
  rewrite IH. reflexivity.
Qed.

Lemma step_message (s : State) (e : Event) :
  message (step s e) = (message s ++ textOf e)%string.
Proof.
  destruct s as [m st' modal rec ctx sock proc mic ana q playing cs]; simpl.
  destruct e as [data | w]; simpl.
  - unfold VoiceAssistant.handleWebSocketMessage, onBuildProgress,
      VoiceAssistant.playNextAudioChunk; simpl.
    destruct (prop data "type") as [type|] eqn:Htype.
    + rewrite (optProp_prop _ _ _ Htype).
      handler_cases; simpl in *; try (symmetry; apply append_empty_r);
        try reflexivity; try congruence; clash.
    + assert (optProp data "type" = Undefined) as ->
        by (unfold optProp; rewrite Htype; reflexivity).
      simpl. symmetry. apply append_empty_r.
  - unfold VoiceAssistant.handleWorkletMessage, VoiceAssistant.playNextAudioChunk; simpl.
    handler_cases; simpl; symmetry; apply append_empty_r.
Qed.

(** X6: The transcript after a run of messages is the transcript before it,
    followed by the text parts of the messages in their order of arrival:
    nothing already shown is changed or dropped, and no other message
    writes to it. *)
Theorem run_transcript (events : list Event) (s : State) :
  message (run events s)
  = (message s ++ fold_right (fun e t => textOf e ++ t) EmptyString events)%string.
Proof.
  revert s. induction events as [|e events IH]; intros s; simpl.
  - symmetry. apply append_empty_r.
  - rewrite IH, step_message, append_assoc. reflexivity.
Qed.

(** X9: [stopRecording] clears the four refs and the recording flag, calls
    [disconnect] or [close] on the refs that were set and on no other, and
    done again it calls nothing and changes nothing. *)
Theorem stopRecording_idempotent (s : State) :
  let s' := stopRecording s in
  microphone s' = false /\ processor s' = false /\ analyser s' = false
  /\ ws s' = false /\ isRecording s' = false
  /\ calls s'
     = calls s
       ++ (if microphone s then [Disconnect "microphone"] else [])
       ++ (if processor s then [Disconnect "processor"] else [])
       ++ (if analyser s then [Disconnect "analyser"] else [])
       ++ (if ws s then [WsClose] else [])
  /\ stopRecording s' = s'.
Proof.
  destruct s as [m st' modal rec ctx sock proc mic ana q playing cs].
  unfold stopRecording; simpl.
  destruct mic, proc, ana, sock; simpl;
    repeat rewrite <- app_assoc; simpl; repeat rewrite app_nil_r;
    repeat split; reflexivity.
Qed.

End VoiceAssistantProperties.

Section VoiceAssistantWitnesses.

Import Js VoiceAssistant.

(** A session whose chunks are named by their base64 text, with a worklet
    attached. *)
Definition chunkOf (v : value) : option string :=
  match v with
  | Str s => Some s
  | _ => None
  end.

Definition neverThrows (c : string) : bool := false.

Definition listening : VoiceAssistant.State string :=
  {| message := "Hello"; status := ""; showApiKeyModal := false;
     isRecording := true; audioContext := true; ws := true; processor := true;
     microphone := true; analyser := true; audioQueue := []; isPlaying := false;
     calls := [] |}.

(** A store with one edge into the chat input and one into the prompt. *)
Definition twoEdges (cs : list (VoiceAssistant.Call string)) : list EdgeType :=
  [{| edge_id := "e1"; targetHandle_id := "ChatInput-a1";
      animated := None; className := None |};
   {| edge_id := "e2"; targetHandle_id := "Prompt-b2";
      animated := None; className := None |}].

Definition progress (event : string) (vertex_id : string) : value :=
  Obj [("type", Str "flow.build.progress");
       ("data", Obj [("event", Str event); ("vertex_id", Str vertex_id)])].

Definition audioDelta (base64 : string) : value :=
  Obj [("type", Str "response.audio.delta"); ("delta", Str base64)].

Definition done : WorkletMessage := {| worklet_type := "done"; worklet_audio := None |}.

(** What the handler calls on the [start_vertex] event of the chat input. *)
Definition startVertexCalls : list (VoiceAssistant.Call string) :=
  [ConsoleLog "flow.build.progress" (progress "start_vertex" "ChatInput-a1");
   UpdateBuildStatus [Str "ChatInput-a1"] NodeStatus.BUILDING;
   SetEdges
     [{| edge_id := "e1"; targetHandle_id := "ChatInput-a1";
         animated := Some true; className := Some "running" |};
      {| edge_id := "e2"; targetHandle_id := "Prompt-b2";
         animated := None; className := None |}]].

Lemma handleWebSocketMessage_build_status_witness :
  In (UpdateBuildStatus [Str "ChatInput-a1"] NodeStatus.BUILDING) startVertexCalls
  /\ ~ In RevertBuiltStatusFromBuilding startVertexCalls.
Proof.
  destruct (handleWebSocketMessage_build_status chunkOf neverThrows twoEdges
              (progress "start_vertex" "ChatInput-a1") listening startVertexCalls
              eq_refl) as [_ Hrevert].
  split.
  - simpl. right. left. reflexivity.
  - intros Hin. apply Hrevert in Hin. destruct Hin as [_ Hend].
    discriminate Hend.
Defined.

Lemma handleWebSocketMessage_edges_witness :
  In (SetEdges (List.map (markRunning (Str "ChatInput-a1")) (twoEdges [])))
     startVertexCalls.
Proof.
  destruct (handleWebSocketMessage_edges chunkOf neverThrows twoEdges
              (progress "start_vertex" "ChatInput-a1") listening startVertexCalls
              eq_refl) as [Hset _].
  apply Hset. repeat split; reflexivity.
Defined.

Lemma handleWebSocketMessage_flags_witness :
  List.filter isFlagCall
    [ConsoleLog "flow.build.progress" (progress "end" "");
     SetIsBuilding (Chunk := string) false; SetLockChat false;
     RevertBuiltStatusFromBuilding; ClearEdgesRunningByNodes] = []
  \/ (isStr (optProp (progress "end" "") "type") "flow.build.progress" = true
      /\ ((isStr (optProp (optProp (progress "end" "") "data") "event") "start" = true
           /\ List.filter isFlagCall
                [ConsoleLog "flow.build.progress" (progress "end" "");
                 SetIsBuilding (Chunk := string) false; SetLockChat false;
                 RevertBuiltStatusFromBuilding; ClearEdgesRunningByNodes]
              = [SetIsBuilding true; SetLockChat true])
          \/ (isStr (optProp (optProp (progress "end" "") "data") "event") "end" = true
              /\ List.filter isFlagCall
                   [ConsoleLog "flow.build.progress" (progress "end" "");
                    SetIsBuilding (Chunk := string) false; SetLockChat false;
                    RevertBuiltStatusFromBuilding; ClearEdgesRunningByNodes]
                 = [SetIsBuilding false; SetLockChat false]))).
Proof.
  apply (handleWebSocketMessage_flags chunkOf neverThrows twoEdges (progress "end" "") listening).
  reflexivity.
Defined.

(** Three chunks arrive while the first one plays, then the worklet
    reports twice that it is done. *)
Definition session : list Event :=
  [Socket (audioDelta "AAAA"); Socket (audioDelta "BBBB"); Worklet done;
   Socket (audioDelta "CCCC"); Worklet done].

Lemma run_one_chunk_at_a_time_witness :
  trackRun chunkOf neverThrows twoEdges session (listening, 0)
  = Some (run chunkOf neverThrows twoEdges session listening, 1)
  /\ inStep (run chunkOf neverThrows twoEdges session listening) 1.
Proof.
  assert (Hrun : trackRun chunkOf neverThrows twoEdges session (listening, 0)
                 = Some (run chunkOf neverThrows twoEdges session listening, 1))
    by (vm_compute; reflexivity).
  split; [exact Hrun |].
  refine (proj2 (run_one_chunk_at_a_time chunkOf neverThrows twoEdges session
                   listening (run chunkOf neverThrows twoEdges session listening)
                   0 1 _ _ _ Hrun)).
  - reflexivity.
  - reflexivity.
  - unfold inStep. simpl. repeat split. lia.
Defined.

Lemma run_played_in_order_witness :
  played (calls (run chunkOf neverThrows twoEdges session listening))
  ++ audioQueue (run chunkOf neverThrows twoEdges session listening)
  = played (calls listening) ++ audioQueue listening
    ++ flat_map (arrived chunkOf (audioContext listening)) session.
Proof.
  apply (run_played_in_order chunkOf neverThrows twoEdges session listening); reflexivity.
Defined.

Example session_ex :
  played (calls (run chunkOf neverThrows twoEdges session listening)) = ["AAAA"; "BBBB"; "CCCC"]
  /\ audioQueue (run chunkOf neverThrows twoEdges session listening) = []
  /\ isPlaying (run chunkOf neverThrows twoEdges session listening) = true.
Proof. repeat split; reflexivity. Qed.

Example start_vertex_ex :
  calls (fst (handleWebSocketMessage chunkOf neverThrows twoEdges
                (progress "start_vertex" "ChatInput-a1") listening))
  = startVertexCalls.
Proof. reflexivity. Qed.

(** A [done] although the worklet holds nothing is not followed. *)
Example stray_done_ex :
  trackRun chunkOf neverThrows twoEdges [Worklet done] (listening, 0) = None.
Proof. vm_compute. reflexivity. Qed.

Example server_error_ex :
  let s' := fst (handleWebSocketMessage chunkOf neverThrows twoEdges
                   (Obj [("type", Str "error"); ("code", Str "api_key_missing")])
                   listening) in
  status s' = "Error: undefined" /\ showApiKeyModal s' = true.
Proof. split; reflexivity. Qed.

Example end_vertex_without_data_ex :
  handleWebSocketMessage chunkOf neverThrows twoEdges (progress "end_vertex" "ChatInput-a1")
    listening
  = (call (UpdateBuildStatus [Str "ChatInput-a1"] NodeStatus.BUILT)
       (call (ConsoleLog "flow.build.progress" (progress "end_vertex" "ChatInput-a1"))
          listening),
     Throws).
Proof. reflexivity. Qed.

End VoiceAssistantWitnesses.

(** ** The messages of the socket *)

Section SocketMessages.

Import Js VoiceAssistant.

Context {Chunk : Type}.
Variable decode : value -> option Chunk.
Variable postThrows : Chunk -> bool.
Variable flowStoreEdges : list (VoiceAssistant.Call Chunk) -> list EdgeType.
Variable JSON_parse : string -> option value.

Local Abbreviation State := (VoiceAssistant.State Chunk).
Local Abbreviation Call := (VoiceAssistant.Call Chunk).
Local Abbreviation handleWebSocketMessage :=
  (VoiceAssistant.handleWebSocketMessage decode postThrows flowStoreEdges).
Local Abbreviation startConversation :=
  (VoiceAssistant.startConversation decode postThrows flowStoreEdges JSON_parse).

Ltac message_cases :=
  repeat match goal with
    | |- context [match ?x with _ => _ end] => destruct x eqn:?
    end.

Ltac read_props :=
  repeat match goal with
    | H : prop _ _ = Some _ |- _ => apply optProp_prop in H
    | H : prop _ _ = None |- _ => apply optProp_None in H
    end;
  subst;
  repeat match goal with
    | H : optProp _ _ = Undefined |- _ => rewrite H in *; clear H
    end.

Ltac two_types :=
  repeat match goal with
    | H : _ && _ = true |- _ => apply andb_true_iff in H; destruct H
    end;
  repeat match goal with
    | H : isStr _ _ = true |- _ => apply isStr_true in H
    end;
  congruence.

(** A disjunction of tests that is false, against one of them that
    holds. *)
Ltac no_type H :=
  repeat (apply orb_false_iff in H; destruct H as [H ?]);
  congruence.

(** The calls of the audio branch, and the calls on the stores. *)
Definition isAudioCall (c : Call) : bool :=
  match c with
  | PostPlayback _ | ConsoleError _ => true
  | _ => false
  end.

Definition isStoreCall (c : Call) : bool :=
  match c with
  | SetIsBuilding _ | SetLockChat _ | UpdateBuildStatus _ _ | SetEdges _
  | AddDataToFlowPool _ _ | UpdateEdgesRunningByNodes _ _
  | RevertBuiltStatusFromBuilding | ClearEdgesRunningByNodes | AddMessage _ => true
  | _ => false
  end.

(** The events of a build that the handler knows. *)
Definition knownEvent (event : value) : bool :=
  isStr event "start" || isStr event "start_vertex" || isStr event "end_vertex"
  || isStr event "error" || isStr event "end" || isStr event "add_message".

(** The types of message that the handler knows. *)
Definition knownType (type : value) : bool :=
  isStr type "response.content_part.added" || isStr type "response.audio.delta"
  || isStr type "flow.build.progress" || isStr type "error".


End SocketMessages.


(** ** The serialized query string *)

Section QueryStringProperties.

Import FlowsQuery.

Fixpoint allChars (P : ascii -> bool) (s : string) : bool :=
  match s with
  | EmptyString => true
  | String c s' => P c && allChars P s'
  end.

Fixpoint countChar (c : ascii) (s : string) : nat :=
  match s with
  | EmptyString => O
  | String c' s' => (if Ascii.eqb c' c then 1 else 0) + countChar c s'
  end.

(** The characters a serialized name or value is made of. *)
Definition safeChar (c : ascii) : bool :=
  UrlSearchParams.unreserved c || Ascii.eqb c "+" || Ascii.eqb c "%".

Lemma allChars_append (P : ascii -> bool) (a b : string) :
  allChars P (a ++ b)%string = allChars P a && allChars P b.
Proof.
  induction a as [|c a IH]; [reflexivity |].
  change (P c && allChars P (a ++ b)%string = P c && allChars P a && allChars P b).
  rewrite IH, andb_assoc. reflexivity.
Qed.

Lemma countChar_append (c : ascii) (a b : string) :
  countChar c (a ++ b)%string = (countChar c a + countChar c b)%nat.
Proof.
  induction a as [|c' a IH]; [reflexivity |].
  change ((if Ascii.eqb c' c then 1 else 0) + countChar c (a ++ b)%string
          = (if Ascii.eqb c' c then 1 else 0) + countChar c a + countChar c b)%nat.
  rewrite IH. lia.
Qed.

Lemma encodeByte_safe (c : ascii) : allChars safeChar (UrlSearchParams.encodeByte c) = true.
Proof. destruct c as [[] [] [] [] [] [] [] []]; vm_compute; reflexivity. Qed.

Lemma encode_allSafe (s : string) : allChars safeChar (UrlSearchParams.encode s) = true.
Proof.
  induction s as [|c s IH]; [reflexivity |].
  simpl. rewrite allChars_append, encodeByte_safe, IH. reflexivity.
Qed.

Lemma countChar_unsafe (c : ascii) (s : string) :
  allChars safeChar s = true -> safeChar c = false -> countChar c s = O.
Proof.
  intros Hs Hc. induction s as [|c' s IH]; [reflexivity |].
  simpl in *. apply andb_true_iff in Hs. destruct Hs as [H1 H2].
  rewrite (IH H2). destruct (Ascii.eqb c' c) eqn:E; [| reflexivity].
  apply Ascii.eqb_eq in E. subst. congruence.
Qed.

(** X10: A serialized name or value holds only letters, digits and the signs
    [*-._+%]: whatever the folder id is, no [&], [=], [?], [#], [/] or
    space of its own reaches the URL. *)
Theorem encode_safe (s : string) :
  allChars safeChar (UrlSearchParams.encode s) = true
  /\ forallb (fun c => negb (safeChar c)) ["&"; "="; "?"; "#"; "/"; " "]%char = true
  /\ countChar "&" (UrlSearchParams.encode s) = O
  /\ countChar "=" (UrlSearchParams.encode s) = O.
Proof.
  pose proof (encode_allSafe s) as H.
  split; [exact H |]. split; [reflexivity |].
  split; apply countChar_unsafe; try exact H; reflexivity.
Qed.

Lemma countChar_pair (c : ascii) (nv : string * string) :
  safeChar c = false ->
  countChar c (UrlSearchParams.pair nv) = if Ascii.eqb "=" c then 1%nat else 0%nat.
Proof.
  intros Hc. unfold UrlSearchParams.pair.
  rewrite countChar_append.
  change ("=" ++ UrlSearchParams.encode nv.2)%string
    with (String "=" (UrlSearchParams.encode nv.2)).
  simpl.
  rewrite (countChar_unsafe c _ (encode_allSafe _) Hc),
    (countChar_unsafe c _ (encode_allSafe _) Hc).
  lia.
Qed.

(** X11: The query string has one [=] for each pair and one [&] between two
    pairs, whatever the names and values are: it splits back into as many
    pairs as were appended. *)
Theorem toString_separators (q : UrlSearchParams.t) :
  countChar "=" (UrlSearchParams.toString q) = length q
  /\ countChar "&" (UrlSearchParams.toString q) = Nat.pred (length q).
Proof.
  induction q as [|nv q [IH1 IH2]]; [split; reflexivity |].
  destruct q as [|nv' q].
  - simpl. rewrite !countChar_pair by reflexivity. split; reflexivity.
  - change (UrlSearchParams.toString (nv :: nv' :: q))
      with (UrlSearchParams.pair nv ++ String "&" (UrlSearchParams.toString (nv' :: q)))%string.
    assert (Hcons : forall c c' t,
               countChar c (String c' t)
               = ((if Ascii.eqb c' c then 1 else 0) + countChar c t)%nat)
      by reflexivity.
    rewrite !countChar_append, !Hcons, IH1, IH2, !countChar_pair by reflexivity.
    simpl. split; lia.
Qed.

Lemma optional_sublist (b : bool) (n : string) (l1 l2 : list string) :
  l1 `sublist_of` l2 -> (optional b n ++ l1) `sublist_of` (n :: l2).
Proof.
  intros H. destruct b; simpl; [apply sublist_skip | apply sublist_cons]; exact H.
Qed.

(** X12: Each parameter goes out at most once, and always in the same order:
    [components_only], [get_all], [header_flows], [folder_id],
    [remove_example_flows], [page], [size]. *)
Theorem queryParams_order (p : GetFlowsParams) :
  List.map fst (queryParams p) `sublist_of` fieldNames
  /\ NoDup (List.map fst (queryParams p)).
Proof.
  assert (H : List.map fst (queryParams p) `sublist_of` fieldNames).
  { rewrite queryParams_names. unfold fieldNames.
    repeat apply optional_sublist.
    rewrite <- (app_nil_r (optional _ "size")).
    apply optional_sublist. constructor. }
  split; [exact H |].
  refine (sublist_NoDup _ _ _ H).
  unfold fieldNames. apply NoDup_ListNoDup. repeat constructor; simpl;
    intros F;
    repeat match goal with
      | H : _ \/ _ |- _ => destruct H
      | H : False |- _ => destruct H
      end; discriminate.
Qed.

(** A number that is an integer and is held exactly: at most
    [Number.MAX_SAFE_INTEGER] in magnitude. *)
Definition safeInteger (z : Z) : Prop := (Z.abs z <= 9007199254740991)%Z.

(** [v] is the decimal numeral of [z]: it is the text of [toString], and
    read as a decimal numeral it gives [z] back. *)
Definition decimalOf (z : Z) (v : string) : Prop :=
  v = numberToString z
  /\ option_map Z.of_int (NilZero.int_of_string v) = Some z.

Lemma to_int_nonnil (z : Z) : Z.to_int z <> Pos Nil /\ Z.to_int z <> Neg Nil.
Proof.
  destruct z as [|q|q]; simpl; split; try discriminate;
    intros H; inversion H as [E];
    exact (DecimalPos.Unsigned.to_uint_nonnil q E).
Qed.

Lemma numberToString_decimalOf (z : Z) : decimalOf z (numberToString z).
Proof.
  unfold decimalOf, numberToString. split; [reflexivity |].
  destruct (to_int_nonnil z) as [H1 H2].
  rewrite (NilZero.isi _ H1 H2). simpl. rewrite DecimalZ.of_to. reflexivity.
Qed.

Lemma numberToString_nonempty (z : Z) : numberToString z <> "".
Proof.
  intros E. destruct (numberToString_decimalOf z) as [_ H].
  rewrite E in H. discriminate H.
Qed.

(** X13: the value that goes with a name: the folder id as given, [true]
    for the flags, and for a page or a size that is a safe integer its
    decimal numeral.  No value is empty. *)
Theorem queryParams_values (p : GetFlowsParams) (name v : string) :
  In (name, v) (queryParams p) ->
  v <> ""
  /\ match name with
     | "folder_id" => folder_id p = Some v
     | "page" => exists z, page p = Some z /\ z <> 0%Z /\ (safeInteger z -> decimalOf z v)
     | "size" => exists z, size p = Some z /\ z <> 0%Z /\ (safeInteger z -> decimalOf z v)
     | _ => v = "true"
     end.
Proof.
  pose proof numberToString_nonempty as Hne.
  unfold queryParams, appendIf, UrlSearchParams.append.
  destruct (truthyBool (components_only p)), (truthyBool (get_all p)),
    (truthyBool (header_flows p)), (truthyString (folder_id p)) eqn:Hf,
    (truthyBool (remove_example_flows p)), (truthyNumber (page p)) eqn:Hp,
    (truthyNumber (size p)) eqn:Hs; simpl;
    intros H;
    repeat match goal with
      | H : _ \/ _ |- _ => destruct H
      | H : False |- _ => destruct H
      | H : (_, _) = (_, _) |- _ => inversion H; subst; clear H
      end;
    try (split; [discriminate | reflexivity]);
    try (apply truthyString_iff in Hf; destruct Hf as (x & -> & Hx); simpl;
         split; [exact Hx | reflexivity]);
    try (apply truthyNumber_iff in Hp; destruct Hp as (z & -> & Hz); simpl;
         split; [apply Hne |];
         exists z; split; [reflexivity |]; split; [exact Hz |];
         intros _; apply numberToString_decimalOf);
    try (apply truthyNumber_iff in Hs; destruct Hs as (z & -> & Hz); simpl;
         split; [apply Hne |];
         exists z; split; [reflexivity |]; split; [exact Hz |];
         intros _; apply numberToString_decimalOf).
Qed.

Lemma queryParams_values_witness :
  "-3" <> ""
  /\ exists z, size firstPageOfFolder = Some z /\ z <> 0%Z
               /\ (safeInteger z -> decimalOf z "-3").
Proof.
  apply (queryParams_values firstPageOfFolder "size" "-3").
  simpl. right. right. left. reflexivity.
Defined.

End QueryStringProperties.

(** ** The refresh mutation as a whole *)

Section RefreshAllOrNothing.

Import FlowsQuery.

Context {FlowType PageInfo APIObject ComponentFields : Type}.
Variable processFlows : FlowsData FlowType PageInfo -> APIObject.
Variable extractFieldsFromComponenents : gmap string APIObject -> ComponentFields.
Variable FLOWS : string.

(** X14: The mutation writes the stores only when both of its requests are
    resolved, and then it never shows the alert; when it is rejected, for
    whatever reason, the flows store and the types store are as they
    were and the alert is shown.  It resolves with the empty list only,
    never with the flows it fetched, and sends two requests at most. *)
Theorem mutationFn_all_or_nothing
    (s : State FlowType PageInfo APIObject ComponentFields)
    (params : option GetFlowsParams) :
  let r := mutationFn processFlows extractFieldsFromComponenents FLOWS params s in
  match snd r with
  | Resolved l =>
      l = [] /\ errorData (fst r) = errorData s
      /\ length (requests (fst r)) = (length (requests s) + 2)%nat
  | Rejected e =>
      errorData (fst r) = Some "Could not load flows from database"
      /\ flows (fst r) = flows s
      /\ typesData (fst r) = typesData s
      /\ componentFields (fst r) = componentFields s
      /\ (length (requests (fst r)) <= length (requests s) + 2)%nat
  end.
Proof.
  destruct params as [p|].
  - destruct (backend s (length (requests s)) (flowsUrl FLOWS p)) as [body|e] eqn:H1.
    + destruct (backend s (S (length (requests s))) (componentsUrl FLOWS))
        as [components|e] eqn:H2.
      * destruct (mutationFn_resolved processFlows extractFieldsFromComponenents
                    FLOWS s p body components H1 H2) as (R1 & R2 & R3 & _).
        cbv zeta. rewrite R1. repeat split; try assumption.
        rewrite R3, length_app. reflexivity.
      * destruct (mutationFn_second_rejected processFlows
                    extractFieldsFromComponenents FLOWS s p body e H1 H2)
          as (R1 & R2 & R3 & R4 & R5 & R6).
        cbv zeta. rewrite R1. repeat split; try assumption.
        rewrite R3, length_app. simpl. lia.
    + destruct (mutationFn_first_rejected processFlows
                  extractFieldsFromComponenents FLOWS s p e H1)
        as (R1 & R2 & R3 & R4 & R5 & R6).
      cbv zeta. rewrite R1. repeat split; try assumption.
      rewrite R3, length_app. simpl. lia.
  - cbv zeta. rewrite mutationFn_undefined. simpl. repeat split; lia.
Qed.

End RefreshAllOrNothing.

(** ** Posting a folder, when the POST is resolved *)

Section PostFoldersResolved.

Import PostFolders.

Context {Folder FoldersStore : Type}.
Variable FOLDERS : string.
Variable getFoldersApi : bool -> M (State Folder FoldersStore) unit.

Definition afterPost (s : State Folder FoldersStore) (newFolder : IPostAddFolders)
    : State Folder FoldersStore :=
  {| backend := backend s;
     requests := requests s ++ [((FOLDERS ++ "/")%string, payloadOf newFolder)];
     foldersStore := foldersStore s; errorData := errorData s;
     successData := successData s |}.

(** X15: Once the POST is resolved the folders are fetched again, once and with
    [true], from the state the POST left; the mutation ends in the state
    that fetch leaves, resolved with the body of the POST when the fetch is
    resolved and rejected with the error of the fetch when it is not,
    although the folder has been created.  Lists the caller left out go
    out as empty lists. *)
Theorem addFoldersFn_resolved (s : State Folder FoldersStore)
    (newFolder : IPostAddFolders) (folder : Folder) :
  backend s (length (requests s)) (FOLDERS ++ "/")%string (payloadOf newFolder)
    = Resolved folder ->
  addFoldersFn FOLDERS getFoldersApi newFolder s
  = match getFoldersApi true (afterPost s newFolder) with
    | (s', Resolved _) => (s', Resolved folder)
    | (s', Rejected e) => (s', Rejected e)
    end
  /\ (flows (data newFolder) = None -> flows_list (payloadOf newFolder) = [])
  /\ (components (data newFolder) = None -> components_list (payloadOf newFolder) = []).
Proof.
  intros H. split; [| split].
  - unfold addFoldersFn, bind, api_post. unfold payloadOf in H. rewrite H.
    unfold afterPost, payloadOf.
    destruct (getFoldersApi true _) as [s' [[]|e]]; reflexivity.
  - unfold payloadOf. simpl. intros ->. reflexivity.
  - unfold payloadOf. simpl. intros ->. reflexivity.
Qed.

End PostFoldersResolved.

Section PostFoldersResolvedWitness.

Import PostFolders.

(** A backend that creates the folder, and a fetch of the folders that is
    rejected. *)
Definition creatingPost : State string unit :=
  {| backend := fun _ _ body => Resolved (payload_name body);
     requests := []; foldersStore := tt; errorData := None; successData := None |}.

Definition failingFetch (force : bool) : M (State string unit) unit :=
  throw (AxiosError "Network Error").

Lemma addFoldersFn_resolved_witness :
  addFoldersFn "/api/v1/folders" failingFetch newFolder creatingPost
  = match failingFetch true (afterPost "/api/v1/folders" creatingPost newFolder) with
    | (s', Resolved _) => (s', Resolved "New Folder")
    | (s', Rejected e) => (s', Rejected e)
    end
  /\ (flows (data newFolder) = None -> flows_list (payloadOf newFolder) = [])
  /\ (components (data newFolder) = None -> components_list (payloadOf newFolder) = []).
Proof.
  apply (addFoldersFn_resolved "/api/v1/folders" failingFetch creatingPost newFolder).
  reflexivity.
Defined.

End PostFoldersResolvedWitness.

(** ** Running a node *)

Section RunNodeProperties.

Import NodeStatus.

Lemma statusIs_true (buildStatus : option BuildStatus) (m : BuildStatus) :
  statusIs buildStatus m = true <-> buildStatus = Some m.
Proof.
  destruct buildStatus as [[]|], m; simpl; split; congruence.
Qed.

(** X17: Neither the click nor the shortcut starts a build while the node is
    building or a build is running, and the shortcut only for the
    selected node; when a build is started it is for this node, up to
    this node, and the former validation is dropped first.  The click
    also reports to analytics, the shortcut never does. *)
Theorem run_handlers (nodeId : string) (buildStatus : option BuildStatus)
    (isBuilding selected : bool) :
  let idle := buildStatus <> Some BUILDING /\ isBuilding = false in
  (idle ->
   handleClickRun nodeId buildStatus isBuilding
   = [SetValidationStatusNull; BuildFlow nodeId; Track "Flow Build - Clicked" nodeId])
  /\ (~ idle -> handleClickRun nodeId buildStatus isBuilding = [])
  /\ (idle /\ selected = true ->
      handlePlayWShortcut nodeId buildStatus isBuilding selected
      = [SetValidationStatusNull; BuildFlow nodeId])
  /\ (~ (idle /\ selected = true) ->
      handlePlayWShortcut nodeId buildStatus isBuilding selected = [])
  /\ (forall c, In c (handlePlayWShortcut nodeId buildStatus isBuilding selected) ->
                In c (handleClickRun nodeId buildStatus isBuilding)).
Proof.
  cbv zeta. unfold handleClickRun, handlePlayWShortcut.
  destruct (statusIs buildStatus BUILDING) eqn:Hs.
  - apply statusIs_true in Hs. simpl.
    repeat split; try reflexivity; try tauto; intros c [].
  - assert (Hn : buildStatus <> Some BUILDING).
    { intros E. apply statusIs_true in E. congruence. }
    destruct isBuilding, selected; simpl;
      repeat split; try reflexivity; try tauto;
      try (intros [_ F]; discriminate F);
      try (intros [[_ F] _]; discriminate F);
      try (intros F; exfalso; apply F; tauto);
      try (intros c []);
      try (intros c [<- | [<- | []]]; simpl; tauto).
Qed.

End RunNodeProperties.

(** ** More on the chat send button *)

Section ChatButtonInert.

Import ChatButton.

(** X18: A click calls nothing exactly when the stop condition holds and no
    build is running.  The button is disabled in such a state only when
    the chat is locked: while a file uploads with the chat unlocked and no
    build running, the button is enabled and a click on it does nothing. *)
Theorem click_inert_iff (p : ButtonSendWrapperProps) (isBuilding : bool) :
  (click p isBuilding = [] <-> showStopButton p = true /\ isBuilding = false)
  /\ (disabled p isBuilding = true -> click p isBuilding = [])
  /\ (click p isBuilding = [] /\ disabled p isBuilding = false
      <-> lockChat p = false /\ someLoading (files p) = true /\ isBuilding = false).
Proof.
  rewrite click_handleClick.
  unfold handleClick, disabled, showStopButton.
  destruct (lockChat p), (someLoading (files p)), isBuilding; simpl;
    intuition (try discriminate; try congruence).
Qed.

End ChatButtonInert.

(** ** More on the slider *)

Section SliderEffects.

Import Slider.

(** X19: Disabling a slider clears its value once: the effect commits the
    empty string, without a snapshot, unless the value is empty already,
    and on the value it has committed it commits nothing more. *)
Theorem disabledEffect_settles (p : Props) :
  let p' := {| value := stored p (disabledEffect p); disabled := disabled p;
               rangeSpec := rangeSpec p |} in
  disabledEffect p' = []
  /\ (disabled p = true -> value p' = ValEmpty)
  /\ (disabled p = false -> value p' = value p)
  /\ (forall c, In c (disabledEffect p) ->
                newValue c = ValEmpty /\ skipSnapshot c = true
                /\ disabled p = true /\ value p <> ValEmpty).
Proof.
  cbv zeta. unfold disabledEffect, stored. simpl.
  split; [| split; [| split]].
  - destruct (disabled p), (value p); reflexivity.
  - intros ->. destruct (value p); reflexivity.
  - intros ->. destruct (value p); reflexivity.
  - intros c. destruct (disabled p), (value p); simpl;
      first [ intros [<- | []]; simpl; repeat split; discriminate
            | intros [] ].
Qed.

End SliderEffects.

(** ** The option buttons of the slider *)

Section SliderButtonsProperties.

Import Slider SliderButtons.

Lemma ltb_Num (a b : Q) : ltb (Num a) (Num b) = true <-> Qlt a b.
Proof.
  simpl. rewrite negb_true_iff. split.
  - apply Qle_bool_false.
  - intros H. destruct (Qle_bool b a) eqn:E; [| reflexivity].
    apply Qle_bool_iff in E. exfalso. exact (Qlt_not_le _ _ H E).
Qed.

Lemma leb_Num (a b : Q) : leb (Num a) (Num b) = true <-> Qle a b.
Proof.
  unfold leb. rewrite negb_true_iff. split.
  - intros H. apply Qnot_lt_le. intros F. apply ltb_Num in F. congruence.
  - intros H. destruct (ltb (Num b) (Num a)) eqn:E; [| reflexivity].
    apply ltb_Num in E. exfalso. exact (Qlt_not_le _ _ E H).
Qed.

(** The values for which the button of an option is coloured. *)
Definition bucket (optionValue : nat) (nv : number) : bool :=
  match optionValue with
  | 0 => leb nv (Num (25 # 100))
  | 1 => ltb (Num (25 # 100)) nv && leb nv (Num (5 # 10))
  | 2 => ltb (Num (5 # 10)) nv && leb nv (Num (75 # 100))
  | 3 => ltb (Num (75 # 100)) nv && leb nv (Num (1 # 1))
  | _ => false
  end%nat.

Definition colorsOf (colorType : ColorType) : list string :=
  match colorType with
  | background => BACKGROUND_COLORS
  | text => TEXT_COLORS
  end.

Lemma getColor_bucket (isDark : bool) (optionValue : nat) (nv : number)
    (colorType : ColorType) :
  getColor isDark optionValue nv colorType
  = if bucket optionValue nv
    then nth optionValue (colorsOf colorType) EmptyString
    else defaultColor isDark colorType.
Proof.
  unfold getColor, bucket, colorsOf.
  destruct optionValue as [|[|[|[|o]]]]; cbn -[ltb leb defaultColor];
    repeat rewrite andb_true_r; repeat rewrite andb_false_r;
    destruct colorType;
    repeat match goal with
      | |- context [if ?b then _ else _] => destruct b eqn:?
      end; try reflexivity; try discriminate.
Qed.

Lemma bucket_unique (j k : nat) (nv : number) :
  bucket j nv = true -> bucket k nv = true -> j = k.
Proof.
  destruct nv as [| |q|].
  - destruct j as [|[|[|[|j]]]]; simpl; try discriminate.
  - destruct j as [|[|[|[|j]]]], k as [|[|[|[|k]]]]; simpl;
      try discriminate; reflexivity.
  - destruct j as [|[|[|[|j]]]], k as [|[|[|[|k]]]]; unfold bucket;
      try discriminate; try reflexivity;
      rewrite ?andb_true_iff, ?ltb_Num, ?leb_Num; intros; exfalso; lra.
  - destruct j as [|[|[|[|j]]]]; simpl; try discriminate.
Qed.

(** X21: At most one option button is coloured, whatever the value; for a
    number up to 1 there is one, and above 1 or without a number there is
    none. *)
Theorem getColor_one_button (isDark : bool) (nv : number) (colorType : ColorType) :
  (forall j k,
      getColor isDark j nv colorType <> defaultColor isDark colorType ->
      getColor isDark k nv colorType <> defaultColor isDark colorType ->
      j = k)
  /\ (forall q, nv = Num q -> Qle q (1 # 1) ->
        exists k, (k < 4)%nat
          /\ getColor isDark k nv background = nth k BACKGROUND_COLORS EmptyString
          /\ getColor isDark k nv background <> defaultColor isDark background)
  /\ (leb nv (Num (1 # 1)) = false ->
      forall k, getColor isDark k nv colorType = defaultColor isDark colorType).
Proof.
  split; [| split].
  - intros j k Hj Hk. rewrite getColor_bucket in Hj, Hk.
    destruct (bucket j nv) eqn:Bj; [| congruence].
    destruct (bucket k nv) eqn:Bk; [| congruence].
    exact (bucket_unique j k nv Bj Bk).
  - intros q -> Hq.
    assert (Hk : exists k, (k < 4)%nat /\ bucket k (Num q) = true).
    { destruct (Qlt_le_dec (75 # 100) q) as [H3 | H3].
      - exists 3%nat. split; [lia |]. unfold bucket.
        rewrite andb_true_iff, ltb_Num, leb_Num. split; assumption.
      - destruct (Qlt_le_dec (5 # 10) q) as [H2 | H2].
        + exists 2%nat. split; [lia |]. unfold bucket.
          rewrite andb_true_iff, ltb_Num, leb_Num. split; assumption.
        + destruct (Qlt_le_dec (25 # 100) q) as [H1 | H1].
          * exists 1%nat. split; [lia |]. unfold bucket.
            rewrite andb_true_iff, ltb_Num, leb_Num. split; assumption.
          * exists 0%nat. split; [lia |]. unfold bucket.
            rewrite leb_Num. assumption. }
    destruct Hk as (k & Hlt & Hb). exists k. split; [exact Hlt |].
    rewrite getColor_bucket, Hb. split; [reflexivity |].
    destruct k as [|[|[|[|k]]]]; [| | | | lia]; destruct isDark; discriminate.
  - intros Hout k. rewrite getColor_bucket.
    assert (Hb : bucket k nv = false).
    { destruct (bucket k nv) eqn:Hb; [| reflexivity]. exfalso.
      destruct nv as [| |q|].
      - destruct k as [|[|[|[|k]]]]; simpl in Hb; discriminate.
      - simpl in Hout. discriminate.
      - assert (Hq : ~ Qle q (1 # 1)).
        { intros F. apply leb_Num in F. congruence. }
        destruct k as [|[|[|[|k]]]]; unfold bucket in Hb; try discriminate;
          rewrite ?andb_true_iff, ?ltb_Num, ?leb_Num in Hb; apply Hq; lra.
      - destruct k as [|[|[|[|k]]]]; simpl in Hb; discriminate. }
    rewrite Hb. reflexivity.
Qed.

End SliderButtonsProperties.
(** ** Replacing the class of a node *)

Section HandleNodeClassProperties.

Import NodeStatus HandleNodeClass.

(** Which type the node has after two changes of class. *)
Definition lastType (first second : option string) : option string :=
  if truthy second then second else first.

Lemma withNodeClass_twice (c1 c2 : APIClassType) (t1 t2 : option string) (n : NodeType) :
  withNodeClass c2 t2 (withNodeClass c1 t1 n) = withNodeClass c2 (lastType t1 t2) n.
Proof.
  unfold withNodeClass, lastType.
  destruct (truthy t2) eqn:E2, (truthy t1) eqn:E1; simpl;
    rewrite ?E2, ?E1; reflexivity.
Qed.

(** X23: the hook hands one updater to its setter, for its own node, and
    that updater replaces the class of the node whole.  Of two changes
    the second one decides the class, and the type too when it gives one;
    a change of class made on a node that a build has stamped discards the
    version written into the old class, and the stamp of a build made on
    the changed node goes into the new class.  The id and the other
    fields of the node stay.  What becomes of the other nodes is the
    setter's doing. *)
Theorem withNodeClass_replaces (nodeId : string) (c1 c2 : APIClassType)
    (t1 t2 : option string) (version : string) (n : NodeType) :
  (forall (Store : Type) (setNode : string -> (NodeType -> NodeType) -> Store -> Store),
      handleNodeClass setNode nodeId c1 t1 = setNode nodeId (withNodeClass c1 t1))
  /\ withNodeClass c2 t2 (withNodeClass c1 t1 n) = withNodeClass c2 (lastType t1 t2) n
  /\ withNodeClass c1 t1 (withVersion version n) = withNodeClass c1 t1 n
  /\ withVersion version (withNodeClass c1 t1 n)
     = withNodeClass (<["lf_version" := JStr version]> c1) t1 n
  /\ id (withNodeClass c1 t1 n) = id n
  /\ node_rest (withNodeClass c1 t1 n) = node_rest n
  /\ data_rest (data (withNodeClass c1 t1 n)) = data_rest (data n)
  /\ node (data (withNodeClass c1 t1 n)) = Some c1
  /\ type (data (withNodeClass c1 t1 n))
     = match lastType (Some (type (data n))) t1 with
       | Some t => t
       | None => EmptyString
       end.
Proof.
  split; [reflexivity |].
  split; [apply withNodeClass_twice |].
  unfold withNodeClass, withVersion, lastType.
  destruct (truthy t1) eqn:Et; simpl; repeat split; try reflexivity;
    destruct t1 as [[|a t]|]; try discriminate Et; reflexivity.
Qed.

End HandleNodeClassProperties.

(** ** The folder buttons of the sidebar *)

Section SideBarFoldersProperties.

Import SideBarFolders.

Lemma splitFrom_length (piece s : string) :
  length (splitFrom piece s) = S (countChar "/" s).
Proof.
  revert piece. induction s as [|c s IH]; intros piece; [reflexivity |].
  simpl. destruct (Ascii.eqb c "/"); simpl; rewrite IH; reflexivity.
Qed.

Lemma splitFrom_head (piece s : string) :
  exists first rest, splitFrom piece s = first :: rest
    /\ (forall c s', s = String c s' -> Ascii.eqb c "/" = true -> first = piece).
Proof.
  destruct s as [|c s]; simpl.
  - exists piece, []. split; [reflexivity |]. intros c s' F. discriminate F.
  - destruct (Ascii.eqb c "/") eqn:E.
    + exists piece, (splitFrom EmptyString s). split; [reflexivity |]. reflexivity.
    + destruct (splitFrom (piece ++ String c EmptyString) s) as [|f r] eqn:F.
      * pose proof (splitFrom_length (piece ++ String c EmptyString) s) as L.
        rewrite F in L. discriminate L.
      * exists f, r. split; [reflexivity |].
        intros c' s' H. inversion H; subst. congruence.
Qed.

Lemma includes_In (l : list string) (x : string) : includes l x = true <-> In x l.
Proof.
  unfold includes. rewrite existsb_exists. split.
  - intros (y & Hy & E). apply String.eqb_eq in E. subst. exact Hy.
  - intros H. exists x. split; [exact H | apply String.eqb_refl].
Qed.

(** X24: A folder is marked when its id is one of the pieces of the path
    between slashes; on a path with fewer than three slashes the user's
    own collection is marked as well, whatever the path says.  A folder
    with an empty id is marked on every path that starts with a slash. *)
Theorem checkPathName_marks (pathname : string) (myCollectionId : option string)
    (itemId : string) :
  (checkPathName pathname myCollectionId itemId = true
   <-> In itemId (split pathname)
       \/ ((countChar "/" pathname < 3)%nat /\ myCollectionId = Some itemId))
  /\ (forall rest, pathname = String "/" rest ->
                   checkPathName pathname myCollectionId "" = true).
Proof.
  assert (Hurl : urlWithoutPath pathname = true <-> (countChar "/" pathname < 3)%nat).
  { unfold urlWithoutPath, split. rewrite splitFrom_length, Nat.ltb_lt. lia. }
  split.
  - unfold checkPathName.
    destruct (urlWithoutPath pathname) eqn:U; simpl.
    + destruct myCollectionId as [m|].
      * destruct (String.eqb itemId m) eqn:E.
        -- apply String.eqb_eq in E. subst. split; [| reflexivity].
           intros _. right. split; [apply Hurl; reflexivity | reflexivity].
        -- rewrite includes_In. apply String.eqb_neq in E.
           split; [tauto |]. intros [H | [_ H]]; [exact H |]. congruence.
      * rewrite includes_In. split; [tauto |].
        intros [H | [_ H]]; [exact H | discriminate H].
    + rewrite includes_In. split; [tauto |].
      intros [H | [H _]]; [exact H |]. apply Hurl in H. discriminate H.
  - intros rest ->. unfold checkPathName.
    destruct (urlWithoutPath (String "/" rest) && _); [reflexivity |].
    apply includes_In. unfold split. simpl. left. reflexivity.
Qed.

End SideBarFoldersProperties.
